(** * Budget-versus-actual report of the student expense tracker

    A shallow embedding of the [GET /api/reports] handler (the reports
    router) together with the pieces of the JavaScript host it calls:
    the calendar functions behind [Date], property lookup on the objects
    used as maps, and the request/response plumbing.

    Conventions of the model.
    - A JavaScript number is [Fin z], the whole number [z], or [NaN].
      A double holds every whole number up to 2^53 in magnitude, and adds,
      subtracts and multiplies whole numbers without rounding as long as
      the results stay in that range; a statement that compares sums
      taken in different orders carries the range as a hypothesis
      ([exactlyAddable]).  Amounts with a fraction, infinities and the
      8.64e15 ms clip of [Date] are outside the model.
    - A [Date] is its time value, milliseconds since the epoch, or
      [None] for an invalid date.  Local time is UTC plus a fixed offset
      [LocalTZA] (no daylight-saving transitions).
    - An object used as a map is the list of its own properties in the
      order of their creation, read through the prototype of an object
      literal: a name that [Object.prototype] defines is found there
      when the object has no property of its own under it, an assignment
      to [__proto__] stores nothing, and [Object.keys] lists array
      indices first, in ascending order. *)

From Stdlib Require Import ZArith List String Ascii Bool Lia Permutation.
From Stdlib Require Import DecimalString.
Import ListNotations.
Local Open Scope string_scope.
Local Open Scope Z_scope.

(** ** Calendar arithmetic of [Date] (ECMAScript, Time Values and Time Range) *)

Module Calendar.

Definition msPerDay : Z := 86400000.

Definition Day (t : Z) : Z := t / msPerDay.
Definition TimeWithinDay (t : Z) : Z := t mod msPerDay.

Definition isLeap (y : Z) : bool :=
  (y mod 4 =? 0) && (negb (y mod 100 =? 0) || (y mod 400 =? 0)).

Definition DaysInYear (y : Z) : Z := if isLeap y then 366 else 365.

Definition DayFromYear (y : Z) : Z :=
  365 * (y - 1970) + (y - 1969) / 4 - (y - 1901) / 100 + (y - 1601) / 400.

(** The year containing day number [d]: an estimate from the mean year
    length (146097 days per 400 years), corrected by at most one. *)
Definition YearFromDay (d : Z) : Z :=
  let y := 1970 + (400 * d) / 146097 in
  if d <? DayFromYear y then y - 1
  else if DayFromYear (y + 1) <=? d then y + 1
  else y.

Definition YearFromTime (t : Z) : Z := YearFromDay (Day t).

Definition DayWithinYear (d : Z) : Z := d - DayFromYear (YearFromDay d).

(** Day within the year on which month [m] (0-based) starts. *)
Definition monthStart (leap : bool) (m : Z) : Z :=
  let l := if leap then 1 else 0 in
  match m with
  | 0 => 0 | 1 => 31 | 2 => 59 + l | 3 => 90 + l | 4 => 120 + l
  | 5 => 151 + l | 6 => 181 + l | 7 => 212 + l | 8 => 243 + l
  | 9 => 273 + l | 10 => 304 + l | 11 => 334 + l
  | _ => 365 + l
  end.

Definition monthOfYearDay (leap : bool) (dwy : Z) : Z :=
  if dwy <? monthStart leap 1 then 0
  else if dwy <? monthStart leap 2 then 1
  else if dwy <? monthStart leap 3 then 2
  else if dwy <? monthStart leap 4 then 3
  else if dwy <? monthStart leap 5 then 4
  else if dwy <? monthStart leap 6 then 5
  else if dwy <? monthStart leap 7 then 6
  else if dwy <? monthStart leap 8 then 7
  else if dwy <? monthStart leap 9 then 8
  else if dwy <? monthStart leap 10 then 9
  else if dwy <? monthStart leap 11 then 10
  else 11.

Definition MonthFromDay (d : Z) : Z :=
  monthOfYearDay (isLeap (YearFromDay d)) (DayWithinYear d).

Definition DateFromDay (d : Z) : Z :=
  DayWithinYear d - monthStart (isLeap (YearFromDay d)) (MonthFromDay d) + 1.

Definition MonthFromTime (t : Z) : Z := MonthFromDay (Day t).
Definition DateFromTime (t : Z) : Z := DateFromDay (Day t).

(** [MakeDay]: the day number of the [date]-th day of month [month] of
    [year]; months outside 0..11 carry into the year, days outside the
    month carry into the neighbouring months. *)
Definition MakeDay (year month date : Z) : Z :=
  let ym := year + month / 12 in
  let mn := month mod 12 in
  DayFromYear ym + monthStart (isLeap ym) mn + date - 1.

Definition MakeDate (day time : Z) : Z := day * msPerDay + time.

End Calendar.

(** ** Numbers and field values *)

Inductive number : Type :=
| NaN
| Fin (z : Z).

Definition isNaN (n : number) : bool :=
  match n with NaN => true | Fin _ => false end.

Definition add (a b : number) : number :=
  match a, b with Fin x, Fin y => Fin (x + y) | _, _ => NaN end.

Definition sub (a b : number) : number :=
  match a, b with Fin x, Fin y => Fin (x - y) | _, _ => NaN end.

(** [amount * count] where [count] is an integer number of periods. *)
Definition times (a : number) (count : Z) : number :=
  match a with Fin x => Fin (x * count) | NaN => NaN end.

(** What a record field can hold when it reaches the handler. *)
Inductive jsval : Type :=
| JUndefined
| JNull
| JNum (n : number)
| JStr (s : string).

(** ToBoolean *)
Definition truthy (v : jsval) : bool :=
  match v with
  | JUndefined | JNull => false
  | JNum NaN => false
  | JNum (Fin z) => negb (z =? 0)
  | JStr s => negb (s =? "")%string
  end.

(** [v || d] *)
Definition or_else (v d : jsval) : jsval := if truthy v then v else d.

(** [s || d] for a field that holds a string, [None] standing for
    [null] and [undefined]. *)
Definition str_truthy (s : option string) : bool :=
  match s with
  | None => false
  | Some x => negb (x =? "")%string
  end.

Definition str_or (s : option string) (d : string) : string :=
  match s with
  | Some x => if (x =? "")%string then d else x
  | None => d
  end.

(** ** Objects used as maps *)

(** What a property of a totals object gives when it is read: a number;
    a text, which is what an inherited member becomes once an amount is
    added to it, and is never empty; or a member inherited from
    [Object.prototype], a function or the prototype itself. *)
Inductive propval : Type :=
| Num (n : number)
| Text
| Member.

Coercion Num : number >-> propval.

(** The own properties of an object literal, in the order of creation. *)
Definition object : Type := list (string * propval).

(** The names [Object.prototype] defines. *)
Definition prototypeNames : list string :=
  [ "constructor"; "toString"; "toLocaleString"; "valueOf";
    "hasOwnProperty"; "isPrototypeOf"; "propertyIsEnumerable";
    "__defineGetter__"; "__defineSetter__";
    "__lookupGetter__"; "__lookupSetter__"; "__proto__" ].

Definition inherited (k : string) : bool :=
  existsb (String.eqb k) prototypeNames.

Fixpoint own (o : object) (k : string) : option propval :=
  match o with
  | [] => None
  | (k', v) :: o' => if (k' =? k)%string then Some v else own o' k
  end.

(** [o[k]]: the own property, else the member of the prototype, else
    [undefined] *)
Definition get (o : object) (k : string) : option propval :=
  match own o k with
  | Some v => Some v
  | None => if inherited k then Some Member else None
  end.

Fixpoint define (o : object) (k : string) (v : propval) : object :=
  match o with
  | [] => [(k, v)]
  | (k', v') :: o' =>
      if (k' =? k)%string then (k', v) :: o' else (k', v') :: define o' k v
  end.

(** [o[k] = v] for a number or a text [v]: the setter behind
    [__proto__] ignores such a value, any other name gets a property of
    the object's own. *)
Definition set (o : object) (k : string) (v : propval) : object :=
  if (k =? "__proto__")%string then o else define o k v.

(** [!o[k]]: the property is absent, zero or NaN *)
Definition absent_or_zero (x : option propval) : bool :=
  match x with
  | None | Some (Num NaN) => true
  | Some (Num (Fin z)) => z =? 0
  | Some Text | Some Member => false
  end.

(** A property read; [undefined] in a place for a number is NaN *)
Definition read (x : option propval) : propval :=
  match x with Some v => v | None => Num NaN end.

(** [o[k] + amount]: numbers add, a text or a member is turned into
    text and the amount appended. *)
Definition plus (x : option propval) (amount : number) : propval :=
  match x with
  | Some (Num n) => Num (add n amount)
  | Some Text | Some Member => Text
  | None => Num NaN
  end.

(** [a - v]: a text or a member is no number. *)
Definition minus (a : number) (v : propval) : number :=
  match v with
  | Num n => sub a n
  | Text | Member => NaN
  end.

(** [o[k] || 0] *)
Definition read_or_zero (x : option propval) : propval :=
  if absent_or_zero x then Num (Fin 0) else read x.

(** Value of a text of decimal digits. *)
Fixpoint digitsValue (s : string) (acc : Z) : option Z :=
  match s with
  | EmptyString => Some acc
  | String c s' =>
      let n := Z.of_N (N_of_ascii c) in
      if (48 <=? n) && (n <=? 57) then digitsValue s' (10 * acc + (n - 48))
      else None
  end.

(** An array index: the decimal text, without leading zeros, of a whole
    number from 0 to 2^32 - 2. *)
Definition arrayIndex (k : string) : option Z :=
  match k with
  | EmptyString => None
  | String c _ =>
      match digitsValue k 0 with
      | Some n =>
          if ((k =? "0")%string || negb (Ascii.eqb c "0")) && (n <=? 4294967294)
          then Some n else None
      | None => None
      end
  end.

Definition isIndex (k : string) : bool :=
  match arrayIndex k with Some _ => true | None => false end.

Fixpoint insertIndex (i : Z) (k : string) (l : list (Z * string)) : list (Z * string) :=
  match l with
  | [] => [(i, k)]
  | (j, k') :: l' =>
      if i <=? j then (i, k) :: l else (j, k') :: insertIndex i k l'
  end.

(** The array indices among [names], in ascending order. *)
Definition indexKeys (names : list string) : list (Z * string) :=
  fold_right
    (fun k sorted =>
       match arrayIndex k with
       | Some i => insertIndex i k sorted
       | None => sorted
       end)
    [] names.

(** The order in which the own names of an object are listed: array
    indices ascending, then the other names as created. *)
Definition propertyOrder (names : list string) : list string :=
  (map snd (indexKeys names) ++ filter (fun k => negb (isIndex k)) names)%list.

(** [Object.keys(o)] *)
Definition keys (o : object) : list string := propertyOrder (map fst o).

(** ** Records and the report *)

Record Expense : Type := mkExpense {
  expense_id : Z;
  expense_amount : jsval;
  expense_category : option string;
  expense_date : jsval
}.

Record Budget : Type := mkBudget {
  budget_id : Z;
  budget_amount : jsval;
  budget_category : option string;
  budget_period : option string
}.

Record CategoryTotal : Type := mkCategoryTotal {
  ct_category : string;
  ct_amount : propval
}.

Record MonthTotal : Type := mkMonthTotal {
  mt_month : string;
  mt_amount : propval
}.

Record BudgetComparison : Type := mkBudgetComparison {
  bc_category : string;
  bc_budget : number;
  bc_actual : propval;
  bc_difference : number
}.

Record Report : Type := mkReport {
  totalExpenses : number;
  expensesByCategory : list CategoryTotal;
  expensesByMonth : list MonthTotal;
  budgetComparison : list BudgetComparison
}.

Inductive response : Type :=
| Status400 (message : string)
| Status500 (message : string)
| Status200 (data : Report).

(** The three validation failures, told apart by their message. *)
Definition InvalidInput : response :=
  Status400 "Please provide startDate and endDate".
Definition InvalidFormat : response :=
  Status400 "Invalid date format".
Definition InvalidRange : response :=
  Status400 "End date cannot be before start date".
Definition ServerError : response :=
  Status500 "Server error generating report".

Record Request : Type := mkRequest {
  user_id : Z;
  startDate : option string;
  endDate : option string
}.

(** ** The record store, and the handler's effects *)

(** A query the handler sends to the ORM. *)
Inductive query : Type :=
| FindExpenses (user : Z) (from to : Z)
| FindBudgets (user : Z).

(** [findAll] resolves to rows or rejects ([None]). *)
Record Store : Type := mkStore {
  Expense_findAll : Z -> Z -> Z -> option (list Expense);
  Budget_findAll : Z -> option (list Budget)
}.

(** A handler step runs against the store, appends the queries it sent
    to the log and either goes on with a value or has already answered. *)
Definition Handler (A : Type) : Type :=
  Store -> list query -> list query * (response + A).

Definition ret {A} (a : A) : Handler A := fun _ log => (log, inr a).

Definition bind {A B} (m : Handler A) (k : A -> Handler B) : Handler B :=
  fun st log =>
    match m st log with
    | (log', inl r) => (log', inl r)
    | (log', inr a) => k a st log'
    end.

(** [return res.status(..).json(..)] *)
Definition respond {A} (r : response) : Handler A := fun _ log => (log, inl r).

(** [if (c) return res...] *)
Definition reject_if (c : bool) (r : response) : Handler unit :=
  if c then respond r else ret tt.

Notation "x <- m ;; k" := (bind m (fun x => k))
  (at level 61, m at next level, right associativity).
Notation "m ;;; k" := (bind m (fun _ => k))
  (at level 61, right associativity).


(** ** The host *)

(** What the handler takes from its JavaScript host: [Date.parse] (a time
    value, or [None] for NaN), the number [parseFloat] reads off the front
    of a string, and the offset of local time from UTC in milliseconds. *)
Class Host : Type := mkHost {
  Date_parse : string -> option Z;
  StringToNumber : string -> number;
  LocalTZA : Z
}.

(** A host to run the handler on: dates in the ECMAScript date-time
    string format, amounts as the text of a whole number. *)
Module Iso.

Import Calendar.

Definition digit (c : ascii) : option Z :=
  let n := Z.of_N (N_of_ascii c) in
  if (48 <=? n) && (n <=? 57) then Some (n - 48) else None.

(** Exactly [n] decimal digits off the front of [s]. *)
Fixpoint digits (n : nat) (acc : Z) (s : string) : option (Z * string) :=
  match n with
  | O => Some (acc, s)
  | S n' =>
      match s with
      | String c s' =>
          match digit c with
          | Some d => digits n' (10 * acc + d) s'
          | None => None
          end
      | EmptyString => None
      end
  end.

Definition expect (c : ascii) (s : string) : option string :=
  match s with
  | String c' s' => if Ascii.eqb c c' then Some s' else None
  | EmptyString => None
  end.

Definition DaysInMonth (y m : Z) : Z :=
  monthStart (isLeap y) (m + 1) - monthStart (isLeap y) m.

(** [YYYY-MM-DD] *)
Definition date_part (s : string) : option (Z * string) :=
  match digits 4 0 s with
  | Some (y, s) =>
    match expect "-" s with
    | Some s =>
      match digits 2 0 s with
      | Some (m, s) =>
        match expect "-" s with
        | Some s =>
          match digits 2 0 s with
          | Some (d, s) =>
              if (1 <=? m) && (m <=? 12) && (1 <=? d) && (d <=? DaysInMonth y (m - 1))
              then Some (MakeDay y (m - 1) d, s)
              else None
          | None => None
          end
        | None => None
        end
      | None => None
      end
    | None => None
    end
  | None => None
  end.

(** [HH:mm:ss], as milliseconds within the day *)
Definition time_part (s : string) : option (Z * string) :=
  match digits 2 0 s with
  | Some (h, s) =>
    match expect ":" s with
    | Some s =>
      match digits 2 0 s with
      | Some (mi, s) =>
        match expect ":" s with
        | Some s =>
          match digits 2 0 s with
          | Some (sec, s) =>
              if (h <=? 23) && (mi <=? 59) && (sec <=? 59)
              then Some (((h * 60 + mi) * 60 + sec) * 1000, s)
              else None
          | None => None
          end
        | None => None
        end
      | None => None
      end
    | None => None
    end
  | None => None
  end.

(** A date alone is UTC midnight; a date and time is UTC with a trailing
    [Z] and local time without. *)
Definition parse (tza : Z) (s : string) : option Z :=
  match date_part s with
  | Some (day, EmptyString) => Some (MakeDate day 0)
  | Some (day, String "T" s) =>
      match time_part s with
      | Some (time, EmptyString) => Some (MakeDate day time - tza)
      | Some (time, String "Z" EmptyString) => Some (MakeDate day time)
      | _ => None
      end
  | _ => None
  end.

Fixpoint digitRun (s : string) (acc : Z) (len : nat) : Z * nat * string :=
  match s with
  | String c s' =>
      match digit c with
      | Some d => digitRun s' (10 * acc + d) (S len)
      | None => (acc, len, s)
      end
  | EmptyString => (acc, len, s)
  end.

(** A fraction of zeros only. *)
Fixpoint zeros (s : string) : bool :=
  match s with
  | String c s' =>
      match digit c with
      | Some d => (d =? 0) && zeros s'
      | None => true
      end
  | EmptyString => true
  end.

Definition unsigned (s : string) : option Z :=
  let '(n, len, rest) := digitRun s 0 O in
  match rest with
  | String "." frac =>
      let '(_, flen, _) := digitRun frac 0 O in
      if (len =? 0)%nat && (flen =? 0)%nat then None
      else if zeros frac then Some n else None
  | _ => if (len =? 0)%nat then None else Some n
  end.

(** [parseFloat] on the texts this host is run on: an optional sign,
    digits and an optional fraction of zeros at the front of [s] give the
    whole number they stand for, and a text that does not start with a
    number gives NaN.  A fraction other than zero, an exponent, leading
    blanks and "Infinity" stand for numbers the model has no value for;
    the sample data has none of them. *)
Definition decimal (s : string) : number :=
  match s with
  | String "-" s' => match unsigned s' with Some n => Fin (- n) | None => NaN end
  | String "+" s' => match unsigned s' with Some n => Fin n | None => NaN end
  | _ => match unsigned s with Some n => Fin n | None => NaN end
  end.

Definition host (tza : Z) : Host := mkHost (parse tza) decimal tza.

End Iso.

(** ** The reports router *)

Section ReportsRouter.

Import Calendar.

Context {host : Host}.

Definition parseFloat (v : jsval) : number :=
  match v with
  | JUndefined | JNull => NaN
  | JNum n => n
  | JStr s => StringToNumber s
  end.

(** [new Date(v)] *)
Definition newDate (v : jsval) : option Z :=
  match v with
  | JUndefined => None
  | JNull => Some 0
  | JNum NaN => None
  | JNum (Fin z) => Some z
  | JStr s => Date_parse s
  end.

(** [new Date(q)] for a query parameter *)
Definition newDateParam (q : option string) : option Z :=
  match q with
  | Some s => Date_parse s
  | None => None
  end.

Definition LocalTime (t : Z) : Z := t + LocalTZA.
Definition UTC (t : Z) : Z := t - LocalTZA.

Definition getFullYear (t : Z) : Z := YearFromTime (LocalTime t).
Definition getMonth (t : Z) : Z := MonthFromTime (LocalTime t).
Definition getDate (t : Z) : Z := DateFromTime (LocalTime t).

Definition setDate (t dt : Z) : Z :=
  let lt := LocalTime t in
  UTC (MakeDate (MakeDay (YearFromTime lt) (MonthFromTime lt) dt)
                (TimeWithinDay lt)).

Definition toString (z : Z) : string := NilZero.string_of_int (Z.to_int z).

(** [s.padStart(2, '0')] *)
Definition padStart2 (s : string) : string :=
  match String.length s with
  | O => "00"
  | S O => "0" ++ s
  | _ => s
  end.

(** [`${date.getFullYear()}-${(date.getMonth() + 1).toString().padStart(2, '0')}`] *)
Definition monthKey (date : Z) : string :=
  toString (getFullYear date) ++ "-" ++ padStart2 (toString (getMonth date + 1)).

(** [parseFloat(expense.amount || 0)] *)
Definition expenseAmount (expense : Expense) : number :=
  parseFloat (or_else (expense_amount expense) (JNum (Fin 0))).

(** [expenses.reduce((sum, expense) => ..., 0)] *)
Definition sumExpenses (expenses : list Expense) : number :=
  fold_left
    (fun sum expense =>
       let amount := expenseAmount expense in
       if isNaN amount then sum else add sum amount)
    expenses (Fin 0).

(** [if (!totals[key]) totals[key] = 0; totals[key] += amount] *)
Definition accumulate (totals : object) (key : string) (amount : number) : object :=
  let totals :=
    if absent_or_zero (get totals key) then set totals key (Fin 0) else totals in
  set totals key (plus (get totals key) amount).

(** One turn of the first [expenses.forEach]. *)
Definition categoryStep (categoryTotals : object) (expense : Expense) : object :=
  let category := str_or (expense_category expense) "other" in
  let amount := expenseAmount expense in
  if isNaN amount then categoryTotals
  else accumulate categoryTotals category amount.

Definition categoryTotals (expenses : list Expense) : object :=
  fold_left categoryStep expenses [].

(** One turn of the second [expenses.forEach]: the date is looked at
    first, then the amount. *)
Definition monthStep (monthTotals : object) (expense : Expense) : object :=
  match newDate (expense_date expense) with
  | None => monthTotals
  | Some date =>
      let month := monthKey date in
      let amount := expenseAmount expense in
      if isNaN amount then monthTotals
      else accumulate monthTotals month amount
  end.

Definition monthTotals (expenses : list Expense) : object :=
  fold_left monthStep expenses [].

(** [Object.keys(totals).forEach(k => out.push({.., amount: totals[k]}))] *)
Definition toCategoryList (totals : object) : list CategoryTotal :=
  map (fun k => mkCategoryTotal k (read (get totals k))) (keys totals).

Definition toMonthList (totals : object) : list MonthTotal :=
  map (fun k => mkMonthTotal k (read (get totals k))) (keys totals).

(** [Math.ceil(a / b)] on integers, for a positive [b] *)
Definition ceilDiv (a b : Z) : Z := - ((- a) / b).

(** Months from the month of [start] to the month of [end_], both first
    moved to the first of their month. *)
Definition monthDiff (start end_ : Z) : Z :=
  let startDate := setDate start 1 in
  let endDate := setDate end_ 1 in
  (getFullYear endDate - getFullYear startDate) * 12
  + (getMonth endDate - getMonth startDate) + 1.

(** The period dispatch of the budget loop. *)
Definition adjustedBudgetAmount
    (period : string) (budgetAmount : number) (start end_ : Z) : number :=
  if (period =? "monthly")%string then
    let months := Z.max 1 (monthDiff start end_) in
    times budgetAmount months
  else if (period =? "weekly")%string then
    let diffTime := Z.max 0 (end_ - start) in
    let days := ceilDiv diffTime msPerDay in
    let weeks := Z.max 1 (ceilDiv days 7) in
    times budgetAmount weeks
  else if (period =? "quarterly")%string then
    let quarters := Z.max 1 (ceilDiv (monthDiff start end_) 3) in
    times budgetAmount quarters
  else if (period =? "yearly")%string then
    let yearDiff := getFullYear end_ - getFullYear start in
    let years :=
      Z.max 1 (yearDiff +
               (if (getMonth start <? getMonth end_)
                   || ((getMonth end_ =? getMonth start)
                       && (getDate start <=? getDate end_))
                then 1 else 0)) in
    times budgetAmount years
  else budgetAmount.

(** [budgetAmount = parseFloat(budget.amount); if (isNaN(..)) budgetAmount = 0] *)
Definition parsedBudgetAmount (budget : Budget) : number :=
  let budgetAmount := parseFloat (budget_amount budget) in
  if isNaN budgetAmount then Fin 0 else budgetAmount.

(** The body of the budget loop: [None] is [continue]. *)
Definition compareBudget
    (totals : object) (start end_ : Z) (budget : Budget) : option BudgetComparison :=
  if negb (str_truthy (budget_category budget)) then None
  else
    let category := str_or (budget_category budget) "" in
    let budgetAmount := parsedBudgetAmount budget in
    let actualAmount := read_or_zero (get totals category) in
    let period := str_or (budget_period budget) "monthly" in
    let adjusted := adjustedBudgetAmount period budgetAmount start end_ in
    let difference := minus adjusted actualAmount in
    Some (mkBudgetComparison category adjusted actualAmount difference).

(** [for (const budget of budgets) { ...; budgetComparison.push(..) }] *)
Definition compareBudgets
    (totals : object) (start end_ : Z) (budgets : list Budget) : list BudgetComparison :=
  fold_left
    (fun out budget =>
       match compareBudget totals start end_ budget with
       | Some entry => (out ++ [entry])%list
       | None => out
       end)
    budgets [].

Definition buildReport
    (start end_ : Z) (expenses : list Expense) (budgets : list Budget) : Report :=
  let totals := categoryTotals expenses in
  mkReport (sumExpenses expenses)
           (toCategoryList totals)
           (toMonthList (monthTotals expenses))
           (compareBudgets totals start end_ budgets).

(** [await Expense.findAll(..)]: a rejection is rethrown and ends in the
    outer [catch], which answers 500. *)
Definition findExpenses (user from to : Z) : Handler (list Expense) :=
  fun st log =>
    let log := (log ++ [FindExpenses user from to])%list in
    match Expense_findAll st user from to with
    | Some rows => (log, inr rows)
    | None => (log, inl ServerError)
    end.

Definition findBudgets (user : Z) : Handler (list Budget) :=
  fun st log =>
    let log := (log ++ [FindBudgets user])%list in
    match Budget_findAll st user with
    | Some rows => (log, inr rows)
    | None => (log, inl ServerError)
    end.

(** [isNaN(start.getTime()) || isNaN(end.getTime())] *)
Definition validDates (start end_ : option Z) : Handler (Z * Z) :=
  match start, end_ with
  | Some s, Some e => ret (s, e)
  | _, _ => respond InvalidFormat
  end.

Definition handler (req : Request) : Handler Report :=
  reject_if (negb (str_truthy (startDate req)) || negb (str_truthy (endDate req)))
            InvalidInput ;;;
  range <- validDates (newDateParam (startDate req)) (newDateParam (endDate req)) ;;
  let '(start, end_) := range in
  reject_if (end_ <? start) InvalidRange ;;;
  expenses <- findExpenses (user_id req) start end_ ;;
  budgets <- findBudgets (user_id req) ;;
  ret (buildReport start end_ expenses budgets).

(** The route: what was asked of the store, and the answer sent. *)
Definition getReports (st : Store) (req : Request) : list query * response :=
  match handler req st [] with
  | (log, inl r) => (log, r)
  | (log, inr data) => (log, Status200 data)
  end.

(** ** Vocabulary of the specification *)

(** The category an expense is filed under. *)
Definition categoryOf (expense : Expense) : string :=
  str_or (expense_category expense) "other".

(** An expense is counted when its amount reads as a number. *)
Definition counted (expense : Expense) : bool :=
  negb (isNaN (expenseAmount expense)).

(** An expense is dated when its date is a valid [Date]. *)
Definition dated (expense : Expense) : bool :=
  match newDate (expense_date expense) with Some _ => true | None => false end.

Definition value (n : number) : Z :=
  match n with Fin z => z | NaN => 0 end.

Definition sumZ (l : list Z) : Z := fold_right Z.add 0 l.

(** Sum of the counted amounts filed under [category]. *)
Definition spentIn (category : string) (expenses : list Expense) : Z :=
  sumZ (map (fun e => value (expenseAmount e))
            (filter (fun e => counted e && (categoryOf e =? category)%string) expenses)).

(** Sum of the counted amounts. *)
Definition spent (expenses : list Expense) : Z :=
  sumZ (map (fun e => value (expenseAmount e)) (filter counted expenses)).

(** Sum of a list of numbers, as [reduce((a, b) => a + b, 0)] adds them. *)
Definition sumNumbers (l : list number) : number := fold_left add l (Fin 0).

(** The number a property value gives where a number is wanted. *)
Definition asNumber (v : propval) : number :=
  match v with
  | Num n => n
  | Text | Member => NaN
  end.

(** The amounts of the counted expenses filed under [category], added
    one after the other in the order of the records, from 0. *)
Definition addedIn (category : string) (expenses : list Expense) : number :=
  sumNumbers
    (map expenseAmount
         (filter (fun e => counted e && (categoryOf e =? category)%string) expenses)).

(** The amounts are whole numbers small enough for doubles to add them
    without rounding, in whatever order. *)
Definition exactlyAddable (expenses : list Expense) : Prop :=
  sumZ (map (fun e => Z.abs (value (expenseAmount e))) expenses) <= 2 ^ 53.

(** Calendar months are numbered consecutively by [year * 12 + month]. *)
Definition monthIndex (t : Z) : Z := getFullYear t * 12 + getMonth t.

(** The period normalizer in the words of the specification (4.3):
    months between the bounds, weeks and quarters rounded up, years by
    the anniversary, each count at least 1, and an unrecognized period
    left as it is. *)
Definition normalizedAmount
    (period : string) (amount : number) (start end_ : Z) : number :=
  let months := monthIndex end_ - monthIndex start + 1 in
  if (period =? "monthly")%string then times amount (Z.max 1 months)
  else if (period =? "weekly")%string then
    let days := ceilDiv (end_ - start) msPerDay in
    times amount (Z.max 1 (ceilDiv days 7))
  else if (period =? "quarterly")%string then
    times amount (Z.max 1 (ceilDiv months 3))
  else if (period =? "yearly")%string then
    let onOrAfter :=
      (getMonth start <? getMonth end_)
      || ((getMonth end_ =? getMonth start) && (getDate start <=? getDate end_)) in
    let years :=
      if onOrAfter then getFullYear end_ - getFullYear start + 1
      else getFullYear end_ - getFullYear start in
    times amount (Z.max 1 years)
  else amount.

(** A budget's amount, 0 when it does not read as a number. *)
Definition amountOrZero (budget : Budget) : number :=
  match parseFloat (budget_amount budget) with
  | NaN => Fin 0
  | Fin z => Fin z
  end.

(** The comparison entry the specification asks for a budget that has
    a category. *)
Definition comparisonOf
    (start end_ : Z) (expenses : list Expense) (budget : Budget) : BudgetComparison :=
  let category := str_or (budget_category budget) "" in
  let normalized :=
    normalizedAmount (str_or (budget_period budget) "monthly")
                     (amountOrZero budget) start end_ in
  let actual := addedIn category expenses in
  mkBudgetComparison category normalized actual (sub normalized actual).

(** The instant [k] calendar months after [t], on the same day of the
    month and at the same time of day ([setMonth(getMonth() + k)]). *)
Definition monthsLater (k t : Z) : Z :=
  let lt := LocalTime t in
  UTC (MakeDate (MakeDay (YearFromTime lt) (MonthFromTime lt + k) (DateFromTime lt))
                (TimeWithinDay lt)).

(** *** Running totals *)


(** A property as the loops leave it: a text under a name that
    [Object.prototype] defines, a number under any other. *)
Definition kept (kv : string * propval) : Prop :=
  if inherited (fst kv) then snd kv = Text
  else exists z, snd kv = Num (Fin z).

(** An object of running totals: no name twice, every property as the
    loops leave it. *)
Definition tidy (o : object) : Prop :=
  NoDup (map fst o) /\ Forall kept o.

(** The running totals after filing each expense that has a key under it. *)
Definition tally (key : Expense -> option string)
    (expenses : list Expense) (o : object) : object :=
  fold_left
    (fun o e =>
       match key e with
       | Some k => accumulate o k (Fin (value (expenseAmount e)))
       | None => o
       end)
    expenses o.

(** The key, if any, the category loop files an expense under. *)
Definition categoryKey (e : Expense) : option string :=
  if counted e then Some (categoryOf e) else None.

(** The key, if any, the month loop files an expense under. *)
Definition monthKeyOf (e : Expense) : option string :=
  match newDate (expense_date e) with
  | Some date => if counted e then Some (monthKey date) else None
  | None => None
  end.


Definition keyedAs (key : Expense -> option string) (c : string) (e : Expense) : bool :=
  match key e with Some k => (k =? c)%string | None => false end.

Definition amounts (l : list Expense) : Z :=
  sumZ (map (fun e => value (expenseAmount e)) l).

(** A request that passes validation, against a store that answers:
    both parameters are given, read as the instants [start <= end_], and
    the two queries resolve to [expenses] and [budgets]. *)
Definition Served (st : Store) (req : Request)
    (start end_ : Z) (expenses : list Expense) (budgets : list Budget) : Prop :=
  str_truthy (startDate req) = true /\ str_truthy (endDate req) = true
  /\ newDateParam (startDate req) = Some start
  /\ newDateParam (endDate req) = Some end_
  /\ start <= end_
  /\ Expense_findAll st (user_id req) start end_ = Some expenses
  /\ Budget_findAll st (user_id req) = Some budgets.

End ReportsRouter.

(** ** A worked request *)

(** Three expenses and one monthly budget, asked about for January and
    February 2024. *)
Module Scenario.

Definition expenses : list Expense :=
  [ mkExpense 1 (JNum (Fin 50)) (Some "Food") (JStr "2024-01-05");
    mkExpense 2 (JNum (Fin 30)) (Some "Food") (JStr "2024-02-10");
    mkExpense 3 (JNum (Fin 20)) (Some "Transport") (JStr "2024-01-20") ].

Definition budgets : list Budget :=
  [ mkBudget 1 (JNum (Fin 100)) (Some "Food") (Some "monthly") ].

Definition store : Store :=
  mkStore (fun _ _ _ => Some expenses) (fun _ => Some budgets).

Definition request : Request :=
  mkRequest 7 (Some "2024-01-01") (Some "2024-02-29").

(** 2024-01-01 and 2024-02-29, midnight UTC *)
Definition start : Z := 1704067200000.
Definition end_ : Z := 1709164800000.

Definition report : Report :=
  mkReport (Fin 100)
    [ mkCategoryTotal "Food" (Fin 80); mkCategoryTotal "Transport" (Fin 20) ]
    [ mkMonthTotal "2024-01" (Fin 70); mkMonthTotal "2024-02" (Fin 30) ]
    [ mkBudgetComparison "Food" (Fin 200) (Fin 80) (Fin 120) ].

(** What a server five hours west of UTC answers instead. *)
Definition report_west : Report :=
  mkReport (Fin 100)
    [ mkCategoryTotal "Food" (Fin 80); mkCategoryTotal "Transport" (Fin 20) ]
    [ mkMonthTotal "2024-01" (Fin 70); mkMonthTotal "2024-02" (Fin 30) ]
    [ mkBudgetComparison "Food" (Fin 300) (Fin 80) (Fin 220) ].

End Scenario.

(** ** Further sample data *)

Module Samples.

(** 2024-01-15 and 2024-03-15, midnight UTC *)
Definition mid_january : Z := 1705276800000.
Definition mid_march : Z := 1710460800000.

(** Two budgets for one category, one budget without a category, one
    with an amount that is not a number, one with an unknown period and
    one without a period. *)
Definition budgets : list Budget :=
  [ mkBudget 1 (JNum (Fin 100)) (Some "Food") (Some "monthly");
    mkBudget 2 (JNum (Fin 40)) (Some "Food") (Some "weekly");
    mkBudget 3 (JNum (Fin 10)) None (Some "monthly");
    mkBudget 4 (JStr "n/a") (Some "Books") (Some "yearly");
    mkBudget 5 (JNum (Fin 50)) (Some "Travel") (Some "biannual");
    mkBudget 6 (JNum (Fin 60)) (Some "Rent") None ].

Definition store : Store :=
  mkStore (fun _ _ _ => Some Scenario.expenses) (fun _ => Some budgets).

(** An expense whose date cannot be read, after one that is in order. *)
Definition undated : Expense :=
  mkExpense 2 (JNum (Fin 30)) (Some "Food") (JStr "not a date").

Definition with_undated : list Expense :=
  [ mkExpense 1 (JNum (Fin 50)) (Some "Food") (JStr "2024-01-05"); undated ].

(** Expenses that add nothing: no amount, and an amount of zero. *)
Definition zero_amounts : list Expense :=
  [ mkExpense 1 JNull (Some "Food") (JStr "2024-01-05");
    mkExpense 2 (JStr "0.00") (Some "Transport") (JStr "2024-01-20") ].

(** One weekly budget, and two requests for the same calendar days
    (1 to 8 January 2024) that differ in the time of day of the end. *)
Definition weekly : list Budget :=
  [ mkBudget 1 (JNum (Fin 100)) (Some "Food") (Some "weekly") ].

Definition weekly_store : Store :=
  mkStore (fun _ _ _ => Some []) (fun _ => Some weekly).

Definition until_midnight : Request :=
  mkRequest 7 (Some "2024-01-01T00:00:00Z") (Some "2024-01-08T00:00:00Z").

Definition until_noon : Request :=
  mkRequest 7 (Some "2024-01-01T00:00:00Z") (Some "2024-01-08T12:00:00Z").

(** A request whose bounds fall on the same day, the end earlier in it. *)
Definition same_day : Request :=
  mkRequest 7 (Some "2024-01-08T10:00:00Z") (Some "2024-01-08T09:00:00Z").

Definition weekly_report (budget : Z) : Report :=
  mkReport (Fin 0) [] []
    [ mkBudgetComparison "Food" (Fin budget) (Fin 0) (Fin budget) ].

End Samples.

(** ** Names that the prototype defines *)

Module Members.


(** A budget for a category called [toString], and no expenses. *)
Definition toString_budget : list Budget :=
  [ mkBudget 1 (JNum (Fin 100)) (Some "toString") (Some "monthly") ].

Definition toString_store : Store :=
  mkStore (fun _ _ _ => Some []) (fun _ => Some toString_budget).

(** Categories that read as array indices, met as "10", "2", "Food". *)
Definition numbered : list Expense :=
  [ mkExpense 1 (JNum (Fin 5)) (Some "10") (JStr "2024-01-05");
    mkExpense 2 (JNum (Fin 7)) (Some "Food") (JStr "2024-01-06");
    mkExpense 3 (JNum (Fin 9)) (Some "2") (JStr "2024-01-07") ].

End Members.

(** ** Further vocabulary *)

(** The distinct elements of a list, each at its first occurrence. *)
Fixpoint firsts (l : list string) : list string :=
  match l with
  | [] => []
  | k :: l' => k :: filter (fun x => negb (x =? k)%string) (firsts l')
  end.

(** The keys the expenses are filed under, one per filed expense. *)
Definition filedUnder {host : Host} (key : Expense -> option string)
    (expenses : list Expense) : list string :=
  flat_map (fun e => match key e with Some k => [k] | None => [] end) expenses.

Definition isNew (seen : list string) (x : string) : bool :=
  negb (existsb (String.eqb x) seen).

(** Any name but [__proto__]. *)
Definition storable (k : string) : bool := negb (k =? "__proto__")%string.

(** The text has a hyphen in it. *)
Fixpoint hasDash (s : string) : bool :=
  match s with
  | EmptyString => false
  | String c s' => Ascii.eqb c "-" || hasDash s'
  end.

Section MoreVocabulary.

Context {host : Host}.
Import Calendar.

(** Sum of the counted amounts dated in month [m] (0-based) of year [y]. *)
Definition spentInMonth (y m : Z) (expenses : list Expense) : Z :=
  sumZ (map (fun e => value (expenseAmount e))
            (filter (fun e =>
                       match newDate (expense_date e) with
                       | Some date =>
                           counted e && (getFullYear date =? y) && (getMonth date =? m)
                       | None => false
                       end) expenses)).

(** The number of periods the dispatch multiplies by. *)
Definition periodCount (period : string) (start end_ : Z) : Z :=
  if (period =? "monthly")%string then Z.max 1 (monthDiff start end_)
  else if (period =? "weekly")%string then
    Z.max 1 (ceilDiv (ceilDiv (Z.max 0 (end_ - start)) msPerDay) 7)
  else if (period =? "quarterly")%string then
    Z.max 1 (ceilDiv (monthDiff start end_) 3)
  else if (period =? "yearly")%string then
    Z.max 1 (getFullYear end_ - getFullYear start +
             (if (getMonth start <? getMonth end_)
                 || ((getMonth end_ =? getMonth start)
                     && (getDate start <=? getDate end_))
              then 1 else 0))
  else 1.

End MoreVocabulary.

(** ** The auth middleware *)

Module Auth.

(** The row of a user, as far as the middleware reads it. *)
Record User : Type := mkUser {
  id : Z;
  is_active : bool
}.

(** Where a request can carry a token: the Authorization header, the
    [token] cookie, the x-auth-token header and the [token] field of the
    body; [None] is an absent one.  Each is taken to hold text when it is
    there: a cookie or a body field that holds a value of another type
    is not part of this model. *)
Record Credentials : Type := mkCredentials {
  authorization : option string;
  cookie_token : option string;
  x_auth_token : option string;
  body_token : option string
}.

(** [jwt.verify]: the id of the payload (the tokens this server signs
    carry one), a TokenExpiredError, or any other error thrown. *)
Inductive verification : Type :=
| Decoded (id : Z)
| TokenExpiredError
| OtherVerifyError.

(** An ORM call resolves or rejects; a rejection is told by its name. *)
Inductive failure : Type :=
| SequelizeDatabaseError
| OtherError.

Inductive result (A : Type) : Type :=
| Resolved (a : A)
| Rejected (e : failure).
Arguments Resolved {A} a.
Arguments Rejected {A} e.

(** [jwt.verify], [User.findByPk] (a row or null) and [user.save]. *)
Record Accounts : Type := mkAccounts {
  jwt_verify : string -> verification;
  User_findByPk : Z -> result (option User);
  User_save : User -> result unit
}.

(** What the middleware asks of the user table. *)
Inductive access : Type :=
| FindByPk (id : Z)
| Save (id : Z).

(** The middleware either hands the request on with [req.user] set, or
    answers itself. *)
Inductive outcome : Type :=
| Next (user : User)
| Answer (status : Z) (error : string).

(** [authHeader.startsWith('Bearer ')] *)
Definition startsWithBearer (authHeader : string) : bool :=
  String.prefix "Bearer " authHeader.

(** [authHeader.substring(7)] *)
Definition substring7 (authHeader : string) : string :=
  String.substring 7 (String.length authHeader - 7) authHeader.

(** The token the middleware settles on; [None] is [null]. *)
Definition findToken (req : Credentials) : option string :=
  let authHeader := str_or (authorization req) "" in
  if str_truthy (authorization req) && startsWithBearer authHeader
  then Some (substring7 authHeader)
  else if str_truthy (cookie_token req) then cookie_token req
  else if str_truthy (x_auth_token req) then x_auth_token req
  else if str_truthy (body_token req) then body_token req
  else None.

(** The outer [catch]. *)
Definition caught (e : failure) : outcome :=
  match e with
  | SequelizeDatabaseError => Answer 500 "Database error during authentication"
  | OtherError => Answer 500 "Server error during authentication"
  end.

Definition auth (db : Accounts) (req : Credentials) : list access * outcome :=
  let token := findToken req in
  if negb (str_truthy token) then
    ([], Answer 401 "No authentication token provided")
  else
    match jwt_verify db (str_or token "") with
    | TokenExpiredError => ([], Answer 401 "Token expired")
    | OtherVerifyError => ([], Answer 401 "Invalid token")
    | Decoded decoded_id =>
        match User_findByPk db decoded_id with
        | Rejected e => ([FindByPk decoded_id], caught e)
        | Resolved None => ([FindByPk decoded_id], Answer 401 "User not found")
        | Resolved (Some user) =>
            if negb (is_active user) then
              ([FindByPk decoded_id],
               Answer 401 "Account is inactive. Please contact support.")
            else
              match User_save db user with
              | Rejected e => ([FindByPk decoded_id; Save (id user)], caught e)
              | Resolved _ => ([FindByPk decoded_id; Save (id user)], Next user)
              end
        end
    end.

(** What [GET /api/reports] answers: the middleware's own answer, or the
    handler's. *)
Inductive answer : Type :=
| Refused (status : Z) (error : string)
| Handled (r : response).

(** [router.get('/', auth, handler)]: the handler runs when the
    middleware calls [next], on the request with [req.user] set. *)
Definition route {host : Host} (db : Accounts) (st : Store)
    (req : Credentials) (startDate endDate : option string)
  : list access * list query * answer :=
  match auth db req with
  | (accesses, Answer status error) => (accesses, [], Refused status error)
  | (accesses, Next user) =>
      let (queries, r) := getReports st (mkRequest (id user) startDate endDate) in
      (accesses, queries, Handled r)
  end.

End Auth.

(** ** Sample data for the middleware and the store *)

Module MoreSamples.

Import Auth.

(** A store whose expense query rejects. *)
Definition no_expenses : Store :=
  mkStore (fun _ _ _ => None) (fun _ => Some Scenario.budgets).

(** Expenses whose amounts are not numbers. *)
Definition unreadable : list Expense :=
  [ mkExpense 1 (JStr "n/a") (Some "Food") (JStr "2024-01-05");
    mkExpense 2 (JStr "twelve") None (JStr "2024-01-06") ].

(** User 7 is active and user 8 is not; the token "good" is signed for
    7, "idle" for 8, "old" has expired and nothing else verifies. *)
Definition accounts : Accounts :=
  mkAccounts
    (fun token =>
       if (token =? "good")%string then Decoded 7
       else if (token =? "idle")%string then Decoded 8
       else if (token =? "old")%string then TokenExpiredError
       else OtherVerifyError)
    (fun id =>
       if id =? 7 then Resolved (Some (mkUser 7 true))
       else if id =? 8 then Resolved (Some (mkUser 8 false))
       else Resolved None)
    (fun _ => Resolved tt).

(** A Bearer header next to a cookie, and a cookie next to a header
    that is not a Bearer one. *)
Definition bearer_and_cookie : Credentials :=
  mkCredentials (Some "Bearer good") (Some "old") None None.

Definition basic_and_cookie : Credentials :=
  mkCredentials (Some "Basic abc") (Some "good") (Some "old") None.

End MoreSamples.


(** * Properties *)

(** ** The calendar *)

Module CalendarFacts.
Import Calendar.

Ltac zdiv := Z.to_euclidean_division_equations; lia.

Lemma isLeap_cases y :
  (isLeap y = true /\ DaysInYear y = 366) \/ (isLeap y = false /\ DaysInYear y = 365).
Proof. unfold DaysInYear. destruct (isLeap y); auto. Qed.

Lemma DayFromYear_next y : DayFromYear (y + 1) = DayFromYear y + DaysInYear y.
Proof.
  unfold DaysInYear, isLeap, DayFromYear.
  destruct (Z.eqb_spec (y mod 4) 0), (Z.eqb_spec (y mod 100) 0), (Z.eqb_spec (y mod 400) 0);
    cbn [andb orb negb]; zdiv.
Qed.

Lemma DayFromYear_mono y y' : y < y' -> DayFromYear y < DayFromYear y'.
Proof. unfold DayFromYear. intros. zdiv. Qed.

Lemma YearFromDay_spec d :
  DayFromYear (YearFromDay d) <= d < DayFromYear (YearFromDay d + 1).
Proof.
  unfold YearFromDay. cbv zeta.
  set (y := 1970 + 400 * d / 146097).
  destruct (Z.ltb_spec d (DayFromYear y)) as [Hlt|Hge].
  - replace (y - 1 + 1) with y by lia. split; [|exact Hlt].
    clear Hlt. subst y. unfold DayFromYear. zdiv.
  - destruct (Z.leb_spec (DayFromYear (y + 1)) d) as [Hle|Hgt].
    + split; [exact Hle|]. clear Hge Hle. subst y. unfold DayFromYear. zdiv.
    + split; assumption.
Qed.

Lemma YearFromDay_unique y d :
  DayFromYear y <= d < DayFromYear (y + 1) -> YearFromDay d = y.
Proof.
  intros Hy. pose proof (YearFromDay_spec d) as Hs.
  destruct (Z.lt_trichotomy (YearFromDay d) y) as [Hlt|[Heq|Hgt]]; [|exact Heq|].
  - assert (DayFromYear (YearFromDay d + 1) <= DayFromYear y).
    { destruct (Z.eq_dec (YearFromDay d + 1) y) as [->|]; [lia|].
      apply Z.lt_le_incl, DayFromYear_mono. lia. }
    lia.
  - assert (DayFromYear (y + 1) <= DayFromYear (YearFromDay d)).
    { destruct (Z.eq_dec (y + 1) (YearFromDay d)) as [->|]; [lia|].
      apply Z.lt_le_incl, DayFromYear_mono. lia. }
    lia.
Qed.

Lemma DayWithinYear_bounds d :
  0 <= DayWithinYear d < DaysInYear (YearFromDay d).
Proof.
  unfold DayWithinYear. pose proof (YearFromDay_spec d).
  rewrite DayFromYear_next in H. lia.
Qed.

Lemma monthStart_year leap : monthStart leap 12 = if leap then 366 else 365.
Proof. destruct leap; reflexivity. Qed.

Lemma monthOfYearDay_range leap k : 0 <= monthOfYearDay leap k <= 11.
Proof.
  unfold monthOfYearDay.
  repeat match goal with |- context [?a <? ?b] => destruct (a <? b) end; lia.
Qed.

Lemma monthOfYearDay_bounds leap k :
  0 <= k < monthStart leap 12 ->
  monthStart leap (monthOfYearDay leap k) <= k
    < monthStart leap (monthOfYearDay leap k + 1).
Proof.
  intros Hk. unfold monthOfYearDay.
  repeat match goal with
         | |- context [?a <? ?b] => destruct (Z.ltb_spec a b)
         end; destruct leap; cbn in *; lia.
Qed.

Lemma monthOfYearDay_unique leap m k :
  0 <= m <= 11 ->
  monthStart leap m <= k < monthStart leap (m + 1) ->
  monthOfYearDay leap k = m.
Proof.
  intros Hm Hk.
  assert (m = 0 \/ m = 1 \/ m = 2 \/ m = 3 \/ m = 4 \/ m = 5 \/ m = 6 \/ m = 7
          \/ m = 8 \/ m = 9 \/ m = 10 \/ m = 11) as Hc by lia.
  unfold monthOfYearDay.
  repeat match goal with
         | |- context [?a <? ?b] => destruct (Z.ltb_spec a b)
         end;
  destruct leap; cbn in *;
  repeat (destruct Hc as [->|Hc]; [cbn in *; lia|]); subst; cbn in *; lia.
Qed.

Lemma monthStart_mono leap m :
  0 <= m <= 11 ->
  0 <= monthStart leap m < monthStart leap (m + 1)
  /\ monthStart leap (m + 1) <= monthStart leap 12.
Proof.
  intros Hm.
  assert (m = 0 \/ m = 1 \/ m = 2 \/ m = 3 \/ m = 4 \/ m = 5 \/ m = 6 \/ m = 7
          \/ m = 8 \/ m = 9 \/ m = 10 \/ m = 11) as Hc by lia.
  destruct leap;
    repeat (destruct Hc as [->|Hc]; [cbn; lia|]); subst; cbn; lia.
Qed.

Lemma DaysInYear_monthStart y : DaysInYear y = monthStart (isLeap y) 12.
Proof. unfold DaysInYear. destruct (isLeap y); reflexivity. Qed.

(** A day given by year, month and day of the month reads back as such. *)
Lemma fields_of_day y m dt :
  0 <= m <= 11 ->
  1 <= dt <= monthStart (isLeap y) (m + 1) - monthStart (isLeap y) m ->
  let d := DayFromYear y + monthStart (isLeap y) m + dt - 1 in
  YearFromDay d = y /\ MonthFromDay d = m /\ DateFromDay d = dt.
Proof.
  intros Hm Hdt d.
  destruct (monthStart_mono (isLeap y) m Hm) as [H1 H2].
  assert (Hy : YearFromDay d = y).
  { apply YearFromDay_unique. rewrite DayFromYear_next, DaysInYear_monthStart.
    subst d. lia. }
  assert (Hmo : MonthFromDay d = m).
  { unfold MonthFromDay, DayWithinYear. rewrite Hy.
    apply monthOfYearDay_unique; [exact Hm|]. subst d. lia. }
  repeat split; [exact Hy|exact Hmo|].
  unfold DateFromDay, DayWithinYear. rewrite Hmo, Hy. subst d. lia.
Qed.

Lemma MonthFromDay_range d : 0 <= MonthFromDay d <= 11.
Proof. apply monthOfYearDay_range. Qed.

Lemma MakeDay_fields y m dt :
  1 <= dt <= monthStart (isLeap (y + m / 12)) (m mod 12 + 1)
             - monthStart (isLeap (y + m / 12)) (m mod 12) ->
  YearFromDay (MakeDay y m dt) = y + m / 12
  /\ MonthFromDay (MakeDay y m dt) = m mod 12
  /\ DateFromDay (MakeDay y m dt) = dt.
Proof.
  intros Hdt. unfold MakeDay. cbv zeta.
  apply fields_of_day; [|exact Hdt].
  pose proof (Z.mod_pos_bound m 12). lia.
Qed.

(** Every day is the [DateFromDay]-th of its month. *)
Lemma MakeDay_of_fields d :
  MakeDay (YearFromDay d) (MonthFromDay d) (DateFromDay d) = d.
Proof.
  pose proof (MonthFromDay_range d) as Hm.
  unfold MakeDay. cbv zeta.
  rewrite (Z.div_small (MonthFromDay d) 12), (Z.mod_small (MonthFromDay d) 12) by lia.
  rewrite Z.add_0_r. unfold DateFromDay, DayWithinYear. lia.
Qed.

Lemma DateFromDay_range d :
  1 <= DateFromDay d
    <= monthStart (isLeap (YearFromDay d)) (MonthFromDay d + 1)
       - monthStart (isLeap (YearFromDay d)) (MonthFromDay d).
Proof.
  unfold DateFromDay, MonthFromDay.
  pose proof (DayWithinYear_bounds d) as Hb. rewrite DaysInYear_monthStart in Hb.
  pose proof (monthOfYearDay_bounds _ _ Hb). lia.
Qed.

(** The first of the month of [d] lies in the same year and month. *)
Lemma first_of_month d :
  let f := MakeDay (YearFromDay d) (MonthFromDay d) 1 in
  YearFromDay f = YearFromDay d /\ MonthFromDay f = MonthFromDay d /\ DateFromDay f = 1.
Proof.
  pose proof (MonthFromDay_range d) as Hm. cbv zeta.
  pose proof (MakeDay_fields (YearFromDay d) (MonthFromDay d) 1) as H.
  rewrite (Z.div_small (MonthFromDay d) 12), (Z.mod_small (MonthFromDay d) 12), Z.add_0_r in H by lia.
  apply H. pose proof (monthStart_mono (isLeap (YearFromDay d)) _ Hm). lia.
Qed.

Lemma Day_MakeDate day time :
  0 <= time < msPerDay -> Day (MakeDate day time) = day.
Proof. unfold Day, MakeDate, msPerDay. intros. zdiv. Qed.

Lemma TimeWithinDay_range t : 0 <= TimeWithinDay t < msPerDay.
Proof. unfold TimeWithinDay, msPerDay. zdiv. Qed.

End CalendarFacts.

(** ** Objects as maps *)

Section ObjectFacts.

Lemma own_In o k : own o k <> None <-> In k (map fst o).
Proof.
  induction o as [|[k' v] o IH]; cbn.
  - split; [congruence|tauto].
  - destruct (String.eqb_spec k' k) as [->|Hne].
    + split; [auto|congruence].
    + rewrite IH. split; [auto|]. intros [H|H]; [congruence|exact H].
Qed.

Lemma own_None o k : own o k = None <-> ~ In k (map fst o).
Proof.
  rewrite <- own_In. destruct (own o k); split; intros H; try congruence.
  exfalso. apply H. discriminate.
Qed.

Lemma own_Some_In o k v : own o k = Some v -> In (k, v) o.
Proof.
  induction o as [|[k0 v0] o IH]; cbn; [discriminate|].
  destruct (String.eqb_spec k0 k) as [->|Hne]; intros H.
  - inversion H; subst. left. reflexivity.
  - right. apply IH, H.
Qed.


Lemma own_define o k v k' :
  own (define o k v) k' = if (k =? k')%string then Some v else own o k'.
Proof.
  induction o as [|[k0 v0] o IH]; cbn.
  - reflexivity.
  - destruct (String.eqb_spec k0 k) as [->|Hne]; cbn.
    + destruct (String.eqb_spec k k'); reflexivity.
    + rewrite IH. destruct (String.eqb_spec k0 k') as [->|]; [|reflexivity].
      destruct (String.eqb_spec k k'); [congruence|reflexivity].
Qed.

Lemma names_define o k v :
  map fst (define o k v)
  = match own o k with Some _ => map fst o | None => (map fst o ++ [k])%list end.
Proof.
  induction o as [|[k0 v0] o IH]; cbn.
  - reflexivity.
  - destruct (String.eqb_spec k0 k) as [->|Hne]; cbn.
    + reflexivity.
    + rewrite IH. destruct (own o k); reflexivity.
Qed.


Lemma Forall_define (P : string * propval -> Prop) o k v :
  Forall P o -> P (k, v) -> Forall P (define o k v).
Proof.
  intros Ho Hk. induction Ho as [|[k0 v0] o H0 Ho IH]; cbn.
  - constructor; [exact Hk|constructor].
  - destruct (String.eqb_spec k0 k) as [->|Hne]; constructor; auto.
Qed.

Lemma NoDup_define o k v : NoDup (map fst o) -> NoDup (map fst (define o k v)).
Proof.
  intros Hnd. rewrite names_define. destruct (own o k) eqn:Hg; [exact Hnd|].
  apply own_None in Hg.
  apply NoDup_app; [exact Hnd|constructor; [intros []|constructor]|].
  intros x Hx [<-|[]]. contradiction.
Qed.

Lemma tidy_nil : tidy [].
Proof. split; constructor. Qed.

(** What a tidy object holds under a name. *)
Lemma tidy_own o k :
  tidy o ->
  own o k = None
  \/ (inherited k = true /\ own o k = Some Text)
  \/ (inherited k = false /\ exists z, own o k = Some (Num (Fin z))).
Proof.
  intros [_ Hkept]. destruct (own o k) as [v|] eqn:Hg; [right|left; reflexivity].
  apply own_Some_In in Hg. rewrite Forall_forall in Hkept.
  specialize (Hkept _ Hg). unfold kept in Hkept. cbn [fst snd] in Hkept.
  destruct (inherited k).
  - left. split; [reflexivity|]. congruence.
  - right. split; [reflexivity|]. destruct Hkept as [z ->]. exists z. reflexivity.
Qed.

Lemma proto_inherited : inherited "__proto__" = true.
Proof. reflexivity. Qed.

(** Adding under [__proto__] leaves the object as it was. *)
Lemma accumulate_proto o a : accumulate o "__proto__" a = o.
Proof.
  unfold accumulate, set. cbn [String.eqb Ascii.eqb Bool.eqb].
  destruct (absent_or_zero (get o "__proto__")); reflexivity.
Qed.

(** Adding under another name that the prototype defines leaves a text. *)
Lemma accumulate_member o k a :
  tidy o -> inherited k = true -> k <> "__proto__" ->
  accumulate o k a = define o k Text.
Proof.
  intros Ht Hi Hp. unfold accumulate, get, set.
  destruct (String.eqb_spec k "__proto__") as [|_]; [contradiction|].
  destruct (tidy_own o k Ht) as [Hg|[[_ Hg]|[Hn _]]]; [| |congruence];
    rewrite Hg, ?Hi; cbn [absent_or_zero]; rewrite Hg, ?Hi; reflexivity.
Qed.

(** Adding under any other name adds to the number kept there, or to 0. *)
Lemma accumulate_plain o k a :
  tidy o -> inherited k = false ->
  accumulate o k (Fin a)
  = define (if absent_or_zero (own o k) then define o k (Fin 0) else o) k
           (Fin (value (asNumber (read (own o k))) + a)).
Proof.
  intros Ht Hi. unfold accumulate, get, set.
  assert (Hp : (k =? "__proto__")%string = false).
  { destruct (String.eqb_spec k "__proto__") as [->|]; [discriminate Hi|reflexivity]. }
  rewrite Hp.
  destruct (tidy_own o k Ht) as [Hg|[[Hn _]|[_ [z Hg]]]]; [|congruence|];
    rewrite Hg, ?Hi; cbn [absent_or_zero read asNumber value].
  - rewrite own_define, String.eqb_refl. reflexivity.
  - destruct (Z.eqb_spec z 0) as [->|Hz].
    + rewrite own_define, String.eqb_refl. reflexivity.
    + rewrite Hg. reflexivity.
Qed.

Lemma accumulate_own o k a k' :
  tidy o ->
  own (accumulate o k (Fin a)) k'
  = if (k =? "__proto__")%string then own o k'
    else if (k =? k')%string then
      Some (if inherited k then Text
            else Num (Fin (value (asNumber (read (own o k))) + a)))
    else own o k'.
Proof.
  intros Ht. destruct (String.eqb_spec k "__proto__") as [->|Hp].
  - rewrite accumulate_proto. reflexivity.
  - destruct (inherited k) eqn:Hi.
    + rewrite accumulate_member by assumption. apply own_define.
    + rewrite accumulate_plain by assumption. rewrite own_define.
      destruct (String.eqb_spec k k') as [|Hne]; [reflexivity|].
      destruct (absent_or_zero (own o k)); [|reflexivity].
      rewrite own_define. destruct (String.eqb_spec k k'); [contradiction|reflexivity].
Qed.

Lemma accumulate_names o k a :
  tidy o ->
  map fst (accumulate o k (Fin a))
  = if (k =? "__proto__")%string then map fst o
    else match own o k with
         | Some _ => map fst o
         | None => (map fst o ++ [k])%list
         end.
Proof.
  intros Ht. destruct (String.eqb_spec k "__proto__") as [->|Hp].
  - rewrite accumulate_proto. reflexivity.
  - destruct (inherited k) eqn:Hi.
    + rewrite accumulate_member by assumption. apply names_define.
    + rewrite accumulate_plain by assumption. rewrite names_define.
      destruct (absent_or_zero (own o k)); [|reflexivity].
      rewrite own_define, String.eqb_refl. apply names_define.
Qed.

Lemma accumulate_tidy o k a : tidy o -> tidy (accumulate o k (Fin a)).
Proof.
  intros Ht. destruct (String.eqb_spec k "__proto__") as [->|Hp].
  - rewrite accumulate_proto. exact Ht.
  - destruct (inherited k) eqn:Hi.
    + rewrite accumulate_member by assumption. destruct Ht as [Hnd Hk]. split.
      * apply NoDup_define, Hnd.
      * apply Forall_define; [exact Hk|]. unfold kept. cbn [fst snd]. rewrite Hi. reflexivity.
    + rewrite accumulate_plain by assumption. destruct Ht as [Hnd Hk].
      assert (Hz : kept (k, Num (Fin 0))).
      { unfold kept. cbn [fst snd]. rewrite Hi. exists 0. reflexivity. }
      split.
      * destruct (absent_or_zero (own o k)); repeat apply NoDup_define; exact Hnd.
      * apply Forall_define.
        -- destruct (absent_or_zero (own o k)); [apply Forall_define|]; assumption.
        -- unfold kept. cbn [fst snd]. rewrite Hi. eexists. reflexivity.
Qed.


(** *** The order of [Object.keys] *)

Lemma insertIndex_perm i k l : Permutation (insertIndex i k l) ((i, k) :: l).
Proof.
  induction l as [|[j k'] l IH]; cbn [insertIndex]; [reflexivity|].
  destruct (i <=? j); [reflexivity|].
  rewrite IH. apply perm_swap.
Qed.

Lemma indexKeys_perm names :
  Permutation (map snd (indexKeys names)) (filter isIndex names).
Proof.
  induction names as [|k names IH]; cbn [indexKeys fold_right filter]; [reflexivity|].
  fold (indexKeys names). unfold isIndex at 1.
  destruct (arrayIndex k) as [i|].
  - rewrite insertIndex_perm. cbn [map snd]. constructor. exact IH.
  - exact IH.
Qed.

Lemma filter_split {A} (f : A -> bool) l :
  Permutation (filter f l ++ filter (fun x => negb (f x)) l) l.
Proof.
  induction l as [|x l IH]; cbn [filter]; [reflexivity|].
  destruct (f x); cbn [negb app].
  - constructor. exact IH.
  - symmetry. apply Permutation_cons_app. symmetry. exact IH.
Qed.

Lemma propertyOrder_perm names : Permutation (propertyOrder names) names.
Proof.
  unfold propertyOrder. rewrite indexKeys_perm. apply filter_split.
Qed.

Lemma propertyOrder_plain names :
  (forall k, In k names -> isIndex k = false) -> propertyOrder names = names.
Proof.
  intros Hplain. unfold propertyOrder.
  induction names as [|k names IH]; cbn [indexKeys fold_right filter]; [reflexivity|].
  fold (indexKeys names).
  pose proof (Hplain k (or_introl eq_refl)) as Hk. unfold isIndex in Hk |- * at 1.
  destruct (arrayIndex k); [discriminate|]. cbn [negb].
  rewrite <- IH at 3 by (intros x Hx; apply Hplain; right; exact Hx).
  assert (Hnil : indexKeys names = []).
  { clear IH Hk. induction names as [|x names IH]; cbn [indexKeys fold_right]; [reflexivity|].
    fold (indexKeys names).
    pose proof (Hplain x (or_intror (or_introl eq_refl))) as Hx. unfold isIndex in Hx.
    destruct (arrayIndex x); [discriminate|].
    apply IH. intros y [<-|Hy]; apply Hplain; [left; reflexivity|right; right; exact Hy]. }
  rewrite Hnil. reflexivity.
Qed.

Lemma keys_In o k : In k (keys o) <-> In k (map fst o).
Proof.
  unfold keys. split; apply Permutation_in;
    [|symmetry]; apply propertyOrder_perm.
Qed.

Lemma keys_NoDup o : NoDup (map fst o) -> NoDup (keys o).
Proof.
  unfold keys. apply Permutation_NoDup. symmetry. apply propertyOrder_perm.
Qed.

(** A text with a hyphen is neither the name of an array element nor one
    of the names the prototype defines. *)
Lemma digitsValue_noDash s acc n : digitsValue s acc = Some n -> hasDash s = false.
Proof.
  revert acc. induction s as [|c s IH]; intros acc; cbn [digitsValue hasDash]; [reflexivity|].
  destruct ((48 <=? Z.of_N (N_of_ascii c)) && (Z.of_N (N_of_ascii c) <=? 57)) eqn:Hd;
    [|discriminate].
  intros H. rewrite (IH _ H), orb_false_r.
  destruct (Ascii.eqb_spec c "-") as [->|]; [discriminate Hd|reflexivity].
Qed.

Lemma hasDash_plain k :
  hasDash k = true -> inherited k = false /\ isIndex k = false.
Proof.
  intros Hk. split.
  - unfold inherited, prototypeNames. cbn [existsb].
    repeat match goal with
           | |- context [(k =? ?n)%string] =>
               destruct (String.eqb_spec k n) as [->|_]; [discriminate Hk|]
           end.
    reflexivity.
  - unfold isIndex, arrayIndex. destruct k as [|c k]; [reflexivity|].
    destruct (digitsValue (String c k) 0) as [n|] eqn:Hd; [|reflexivity].
    apply digitsValue_noDash in Hd. congruence.
Qed.

End ObjectFacts.

(** ** The aggregation loops *)

Section TallyFacts.

Context {host : Host}.

Lemma Fin_value n : isNaN n = false -> Fin (value n) = n.
Proof. destruct n; [discriminate|reflexivity]. Qed.

Lemma categoryTotals_tally expenses :
  categoryTotals expenses = tally categoryKey expenses [].
Proof.
  unfold categoryTotals, tally. generalize (@nil (string * propval)).
  induction expenses as [|e l IH]; intros o; cbn [fold_left]; [reflexivity|].
  rewrite IH. f_equal. unfold categoryStep, categoryKey, counted.
  destruct (isNaN (expenseAmount e)) eqn:Hn; cbn [negb]; [reflexivity|].
  rewrite Fin_value by exact Hn. reflexivity.
Qed.

Lemma monthTotals_tally expenses :
  monthTotals expenses = tally monthKeyOf expenses [].
Proof.
  unfold monthTotals, tally. generalize (@nil (string * propval)).
  induction expenses as [|e l IH]; intros o; cbn [fold_left]; [reflexivity|].
  rewrite IH. f_equal. unfold monthStep, monthKeyOf, counted.
  destruct (newDate (expense_date e)); [|reflexivity].
  destruct (isNaN (expenseAmount e)) eqn:Hn; cbn [negb]; [reflexivity|].
  rewrite Fin_value by exact Hn. reflexivity.
Qed.

Section Tally.

Variable key : Expense -> option string.

Lemma tally_tidy l o : tidy o -> tidy (tally key l o).
Proof.
  unfold tally. revert o. induction l as [|e l IH]; intros o Ho; cbn [fold_left]; [exact Ho|].
  apply IH. destruct (key e); [apply accumulate_tidy|]; exact Ho.
Qed.


Lemma tally_own l o c :
  tidy o -> inherited c = false ->
  value (asNumber (read (own (tally key l o) c)))
  = value (asNumber (read (own o c))) + amounts (filter (keyedAs key c) l).
Proof.
  intros Ho Hc. unfold tally, amounts, sumZ. revert o Ho.
  induction l as [|e l IH]; intros o Ho; cbn [fold_left filter]; [cbn; lia|].
  unfold keyedAs at 1. destruct (key e) as [k|].
  - rewrite IH by (apply accumulate_tidy; exact Ho).
    rewrite accumulate_own by exact Ho.
    destruct (String.eqb_spec k c) as [->|Hne].
    + destruct (String.eqb_spec c "__proto__") as [->|_]; [discriminate Hc|].
      rewrite Hc. cbn [map fold_right read asNumber value]. lia.
    + destruct (k =? "__proto__")%string; lia.
  - apply IH, Ho.
Qed.

Lemma tally_names l o c :
  tidy o ->
  In c (map fst (tally key l o))
  <-> In c (map fst o)
      \/ (c <> "__proto__" /\ exists e, In e l /\ key e = Some c).
Proof.
  unfold tally. revert o.
  induction l as [|e l IH]; intros o Ho; cbn [fold_left].
  - split; [auto|]. intros [H|(_ & e & [] & _)]. exact H.
  - destruct (key e) as [k|] eqn:Hk.
    + rewrite IH by (apply accumulate_tidy; exact Ho).
      rewrite accumulate_names by exact Ho.
      assert (In c (if (k =? "__proto__")%string then map fst o
                    else match own o k with
                         | Some _ => map fst o
                         | None => (map fst o ++ [k])%list
                         end)
              <-> In c (map fst o) \/ (k <> "__proto__" /\ k = c)) as ->.
      { destruct (String.eqb_spec k "__proto__") as [->|Hp].
        - split; [auto|]. intros [H|[H _]]; [exact H|]. exfalso. apply H. reflexivity.
        - destruct (own o k) eqn:Hg.
          + split; [auto|]. intros [H|[_ <-]]; [exact H|]. apply own_In. congruence.
          + rewrite in_app_iff. cbn. tauto. }
      split.
      * intros [[H|[Hp <-]]|(Hp & x & Hx & Hkx)]; auto.
        -- right. split; [exact Hp|]. exists e. split; [left; reflexivity|exact Hk].
        -- right. split; [exact Hp|]. exists x. split; [right; exact Hx|exact Hkx].
      * intros [H|(Hp & x & [<-|Hx] & Hkx)]; auto.
        -- left. right. split; congruence.
        -- right. split; [exact Hp|]. exists x. split; assumption.
    + rewrite IH by exact Ho. split.
      * intros [H|(Hp & x & Hx & Hkx)]; auto.
        right. split; [exact Hp|]. exists x. split; [right; exact Hx|exact Hkx].
      * intros [H|(Hp & x & [<-|Hx] & Hkx)]; auto; [congruence|].
        right. split; [exact Hp|]. exists x. split; assumption.
Qed.

(** What the tally keeps under a name that the prototype defines. *)
Lemma tally_member l o c :
  tidy o -> inherited c = true ->
  get (tally key l o) c = Some Member \/ get (tally key l o) c = Some Text.
Proof.
  intros Ho Hc. pose proof (tally_tidy l o Ho) as Ht. unfold get. rewrite Hc.
  destruct (tidy_own _ c Ht) as [Hg|[[_ Hg]|[Hn _]]]; [| |congruence]; rewrite Hg; auto.
Qed.

End Tally.

(** On a tidy object the list handed out reads the properties back. *)
Lemma get_plain o k : inherited k = false -> get o k = own o k.
Proof. intros Hk. unfold get. rewrite Hk. destruct (own o k); reflexivity. Qed.

Lemma get_listed o k :
  In k (map fst o) -> get o k = own o k.
Proof.
  intros Hin. apply own_In in Hin. unfold get.
  destruct (own o k); [reflexivity|congruence].
Qed.


Lemma sumNumbers_Fin l acc :
  Forall (fun n => isNaN n = false) l ->
  fold_left add l (Fin acc) = Fin (acc + sumZ (map value l)).
Proof.
  unfold sumZ. revert acc. induction l as [|n l IH]; intros acc Hl; cbn.
  - f_equal. lia.
  - inversion Hl as [|? ? Hn Hl']; subst. destruct n as [|z]; [discriminate|].
    cbn. rewrite IH by exact Hl'. f_equal. lia.
Qed.


Lemma sumExpenses_added expenses :
  sumExpenses expenses = sumNumbers (map expenseAmount (filter counted expenses)).
Proof.
  unfold sumExpenses, sumNumbers. generalize (Fin 0).
  induction expenses as [|e l IH]; intros acc; cbn [fold_left filter map]; [reflexivity|].
  unfold counted at 1. cbv zeta.
  destruct (isNaN (expenseAmount e)); cbn [negb map fold_left]; apply IH.
Qed.

Lemma sumExpenses_spent expenses : sumExpenses expenses = Fin (spent expenses).
Proof.
  rewrite sumExpenses_added. unfold sumNumbers, spent. rewrite sumNumbers_Fin.
  - rewrite Z.add_0_l, map_map. reflexivity.
  - apply Forall_map, Forall_forall. intros e He. apply filter_In in He.
    destruct He as [_ He]. unfold counted in He. apply negb_true_iff, He.
Qed.

Lemma addedIn_spentIn c expenses : addedIn c expenses = Fin (spentIn c expenses).
Proof.
  unfold addedIn, sumNumbers, spentIn. rewrite sumNumbers_Fin.
  - rewrite Z.add_0_l, map_map. reflexivity.
  - apply Forall_map, Forall_forall. intros e He. apply filter_In in He.
    destruct He as [_ He]. apply andb_true_iff in He. destruct He as [He _].
    unfold counted in He. apply negb_true_iff, He.
Qed.

End TallyFacts.

(** ** The handler *)

Section HandlerFacts.

Context {host : Host}.
Import Calendar CalendarFacts.

Lemma getReports_served st req start end_ expenses budgets :
  Served st req start end_ expenses budgets ->
  getReports st req
  = ([FindExpenses (user_id req) start end_; FindBudgets (user_id req)],
     Status200 (buildReport start end_ expenses budgets)).
Proof.
  intros (Hs & He & Hps & Hpe & Hle & Hx & Hb).
  unfold getReports, handler, bind, reject_if, validDates, findExpenses, findBudgets.
  rewrite Hs, He, Hps, Hpe. cbn [negb orb ret].
  destruct (Z.ltb_spec end_ start) as [Hlt|_]; [lia|].
  cbn [ret app]. rewrite Hx, Hb. reflexivity.
Qed.

Lemma compareBudgets_entries totals start end_ budgets :
  compareBudgets totals start end_ budgets
  = flat_map (fun b => match compareBudget totals start end_ b with
                       | Some entry => [entry]
                       | None => []
                       end) budgets.
Proof.
  unfold compareBudgets.
  enough (forall out,
    fold_left (fun out budget =>
                 match compareBudget totals start end_ budget with
                 | Some entry => (out ++ [entry])%list
                 | None => out
                 end) budgets out
    = (out ++ flat_map (fun b => match compareBudget totals start end_ b with
                                 | Some entry => [entry]
                                 | None => []
                                 end) budgets)%list) as H by apply H.
  induction budgets as [|b l IH]; intros out; cbn [fold_left flat_map].
  - rewrite app_nil_r. reflexivity.
  - rewrite IH. destruct (compareBudget totals start end_ b).
    + rewrite <- app_assoc. reflexivity.
    + reflexivity.
Qed.

Lemma categoryTotals_tidy expenses : tidy (categoryTotals expenses).
Proof. rewrite categoryTotals_tally. apply tally_tidy, tidy_nil. Qed.

Lemma monthTotals_tidy expenses : tidy (monthTotals expenses).
Proof. rewrite monthTotals_tally. apply tally_tidy, tidy_nil. Qed.

(** The "actual" column under a name the prototype does not define is
    what was added up for the category. *)
Lemma actual_addedIn expenses category :
  inherited category = false ->
  read_or_zero (get (categoryTotals expenses) category)
  = Num (addedIn category expenses).
Proof.
  intros Hc. rewrite get_plain by exact Hc. rewrite addedIn_spentIn.
  pose proof (tally_own categoryKey expenses [] category tidy_nil Hc) as Hv.
  rewrite <- categoryTotals_tally in Hv. cbn [own read asNumber value] in Hv.
  rewrite Z.add_0_l in Hv.
  replace (spentIn category expenses)
    with (amounts (filter (keyedAs categoryKey category) expenses)).
  2:{ unfold amounts, spentIn. do 2 f_equal. apply filter_ext. intros x.
      unfold keyedAs, categoryKey. destruct (counted x); reflexivity. }
  rewrite <- Hv. unfold read_or_zero.
  destruct (tidy_own _ category (categoryTotals_tidy expenses))
    as [Hg|[[Hn _]|[_ [z Hg]]]]; [|congruence|]; rewrite Hg; cbn.
  - reflexivity.
  - destruct (Z.eqb_spec z 0) as [->|]; reflexivity.
Qed.

(** Under a name the prototype defines it is the member, or the text it
    has become. *)
Lemma actual_member expenses category :
  inherited category = true ->
  read_or_zero (get (categoryTotals expenses) category) = Member
  \/ read_or_zero (get (categoryTotals expenses) category) = Text.
Proof.
  intros Hc. rewrite categoryTotals_tally.
  destruct (tally_member categoryKey expenses [] category tidy_nil Hc) as [-> | ->];
    [left|right]; reflexivity.
Qed.


(** Moving a date to the first of its month keeps its year and month. *)
Lemma setDate_first t :
  getFullYear (setDate t 1) = getFullYear t
  /\ getMonth (setDate t 1) = getMonth t
  /\ getDate (setDate t 1) = 1.
Proof.
  unfold getFullYear, getMonth, getDate, setDate, YearFromTime, MonthFromTime,
    DateFromTime, LocalTime, UTC. cbv zeta.
  replace (MakeDate (MakeDay (YearFromDay (Day (t + LocalTZA)))
                             (MonthFromDay (Day (t + LocalTZA))) 1)
                    (TimeWithinDay (t + LocalTZA)) - LocalTZA + LocalTZA)
    with (MakeDate (MakeDay (YearFromDay (Day (t + LocalTZA)))
                            (MonthFromDay (Day (t + LocalTZA))) 1)
                   (TimeWithinDay (t + LocalTZA))) by lia.
  rewrite Day_MakeDate by apply TimeWithinDay_range.
  apply first_of_month.
Qed.

Lemma monthDiff_index start end_ :
  monthDiff start end_ = monthIndex end_ - monthIndex start + 1.
Proof.
  unfold monthDiff, monthIndex. cbv zeta.
  destruct (setDate_first start) as (-> & -> & _).
  destruct (setDate_first end_) as (-> & -> & _). lia.
Qed.

Lemma Day_mono t t' : t <= t' -> Day t <= Day t'.
Proof. unfold Day, msPerDay. intros. zdiv. Qed.

Lemma YearFromDay_mono d d' : d <= d' -> YearFromDay d <= YearFromDay d'.
Proof.
  intros Hd. pose proof (YearFromDay_spec d) as H1. pose proof (YearFromDay_spec d') as H2.
  destruct (Z_le_gt_dec (YearFromDay d) (YearFromDay d')) as [|Hgt]; [assumption|].
  assert (DayFromYear (YearFromDay d' + 1) <= DayFromYear (YearFromDay d)).
  { destruct (Z.eq_dec (YearFromDay d' + 1) (YearFromDay d)) as [->|]; [lia|].
    apply Z.lt_le_incl, DayFromYear_mono. lia. }
  lia.
Qed.

Lemma monthOfYearDay_mono leap k k' :
  k <= k' -> monthOfYearDay leap k <= monthOfYearDay leap k'.
Proof.
  intros Hk. unfold monthOfYearDay.
  repeat match goal with
         | |- context [?a <? ?b] => destruct (Z.ltb_spec a b)
         end; lia.
Qed.

(** Months are numbered in the order of time. *)
Lemma monthIndex_mono start end_ : start <= end_ -> monthIndex start <= monthIndex end_.
Proof.
  intros Hle. unfold monthIndex, getFullYear, getMonth, YearFromTime, MonthFromTime, LocalTime.
  assert (Hd : Day (start + LocalTZA) <= Day (end_ + LocalTZA)) by (apply Day_mono; lia).
  set (d := Day (start + LocalTZA)) in *. set (d' := Day (end_ + LocalTZA)) in *.
  pose proof (YearFromDay_mono d d' Hd) as Hy.
  pose proof (MonthFromDay_range d). pose proof (MonthFromDay_range d').
  destruct (Z.eq_dec (YearFromDay d) (YearFromDay d')) as [Heq|Hne]; [|lia].
  enough (MonthFromDay d <= MonthFromDay d') by lia.
  unfold MonthFromDay, DayWithinYear. rewrite Heq.
  apply monthOfYearDay_mono. lia.
Qed.


Lemma times_one amount : times amount 1 = amount.
Proof. destruct amount as [|z]; cbn; [reflexivity|]. f_equal. lia. Qed.

Lemma month_length leap m :
  0 <= m <= 11 -> 28 <= monthStart leap (m + 1) - monthStart leap m.
Proof.
  intros Hm.
  assert (m = 0 \/ m = 1 \/ m = 2 \/ m = 3 \/ m = 4 \/ m = 5 \/ m = 6 \/ m = 7
          \/ m = 8 \/ m = 9 \/ m = 10 \/ m = 11) as Hc by lia.
  destruct leap;
    repeat (destruct Hc as [->|Hc]; [cbn; lia|]); subst; cbn; lia.
Qed.

(** A day of the month that every month has is kept by [monthsLater],
    and the month number moves by [k]. *)
Lemma monthsLater_fields k t :
  getDate t <= 28 ->
  monthIndex (monthsLater k t) = monthIndex t + k
  /\ getDate (monthsLater k t) = getDate t.
Proof.
  intros Hd.
  unfold monthIndex, getFullYear, getMonth, getDate, monthsLater, YearFromTime,
    MonthFromTime, DateFromTime, LocalTime, UTC in *. cbv zeta.
  set (d := Day (t + LocalTZA)) in *.
  replace (MakeDate (MakeDay (YearFromDay d) (MonthFromDay d + k) (DateFromDay d))
                    (TimeWithinDay (t + LocalTZA)) - LocalTZA + LocalTZA)
    with (MakeDate (MakeDay (YearFromDay d) (MonthFromDay d + k) (DateFromDay d))
                   (TimeWithinDay (t + LocalTZA))) by lia.
  rewrite Day_MakeDate by apply TimeWithinDay_range.
  pose proof (DateFromDay_range d) as Hr.
  pose proof (Z.mod_pos_bound (MonthFromDay d + k) 12 ltac:(lia)) as Hm.
  destruct (MakeDay_fields (YearFromDay d) (MonthFromDay d + k) (DateFromDay d))
    as (-> & -> & ->).
  - pose proof (month_length (isLeap (YearFromDay d + (MonthFromDay d + k) / 12))
                             ((MonthFromDay d + k) mod 12)). lia.
  - split; [|reflexivity].
    pose proof (Z.div_mod (MonthFromDay d + k) 12). lia.
Qed.






Lemma toCategoryList_categories o : map ct_category (toCategoryList o) = keys o.
Proof. unfold toCategoryList. rewrite map_map. apply map_id. Qed.

Lemma hasDash_append s t : hasDash (s ++ "-" ++ t) = true.
Proof.
  induction s as [|c s IH]; [reflexivity|].
  change (Ascii.eqb c "-" || hasDash (s ++ "-" ++ t) = true).
  rewrite IH. apply orb_true_r.
Qed.

(** A month key is neither a name of the prototype nor an array index. *)
Lemma monthKeyOf_plain e k :
  monthKeyOf e = Some k -> inherited k = false /\ isIndex k = false.
Proof.
  unfold monthKeyOf. destruct (newDate (expense_date e)) as [date|]; [|discriminate].
  destruct (counted e); [|discriminate]. intros [= <-].
  apply hasDash_plain. unfold monthKey. apply hasDash_append.
Qed.





(** A turn of either loop that skips its record leaves the totals alone. *)
Lemma fold_left_skip {A B} (f : A -> B -> A) l1 x l2 a :
  (forall a', f a' x = a') ->
  fold_left f (l1 ++ x :: l2) a = fold_left f (l1 ++ l2) a.
Proof.
  intros Hx. rewrite !fold_left_app. cbn [fold_left]. rewrite Hx. reflexivity.
Qed.


Lemma plain_read o k :
  tidy o -> In k (map fst o) -> inherited k = false ->
  read (get o k) = Num (Fin (value (asNumber (read (own o k))))).
Proof.
  intros Ht Hin Hk. rewrite get_plain by exact Hk.
  destruct (tidy_own o k Ht) as [Hg|[[Hn _]|[_ [z Hg]]]].
  - apply own_None in Hg. contradiction.
  - congruence.
  - rewrite Hg. reflexivity.
Qed.

Lemma member_read o k :
  tidy o -> In k (map fst o) -> inherited k = true -> read (get o k) = Text.
Proof.
  intros Ht Hin Hk. rewrite get_listed by exact Hin.
  destruct (tidy_own o k Ht) as [Hg|[[_ Hg]|[Hn _]]].
  - apply own_None in Hg. contradiction.
  - rewrite Hg. reflexivity.
  - congruence.
Qed.

(** The names listed for the categories. *)
Lemma category_names expenses c :
  In c (keys (categoryTotals expenses))
  <-> c <> "__proto__"
      /\ exists x, In x expenses /\ counted x = true /\ categoryOf x = c.
Proof.
  rewrite keys_In, categoryTotals_tally, tally_names by apply tidy_nil.
  cbn [map In]. split.
  - intros [[]|(Hp & x & Hx & Hk)]. split; [exact Hp|]. exists x.
    unfold categoryKey in Hk. destruct (counted x); [|discriminate].
    inversion Hk. auto.
  - intros (Hp & x & Hx & Hc & Hcat). right. split; [exact Hp|].
    exists x. split; [exact Hx|]. unfold categoryKey. rewrite Hc, Hcat. reflexivity.
Qed.

(** The amount listed for a category the prototype has no name for. *)
Lemma category_amount expenses c :
  In c (keys (categoryTotals expenses)) -> inherited c = false ->
  read (get (categoryTotals expenses) c) = Num (addedIn c expenses).
Proof.
  intros Hin Hc. apply keys_In in Hin.
  rewrite plain_read by (apply categoryTotals_tidy || assumption).
  rewrite addedIn_spentIn. do 2 f_equal.
  rewrite categoryTotals_tally, tally_own by (apply tidy_nil || exact Hc).
  cbn [own read asNumber value]. rewrite Z.add_0_l.
  unfold amounts, spentIn. do 2 f_equal. apply filter_ext. intros x.
  unfold keyedAs, categoryKey. destruct (counted x); reflexivity.
Qed.

(** With the bounds in order the dispatch computes what the
    specification describes. *)
Lemma adjusted_normalized period amount start end_ :
  start <= end_ ->
  adjustedBudgetAmount period amount start end_
  = normalizedAmount period amount start end_.
Proof.
  intros Hle. unfold adjustedBudgetAmount, normalizedAmount. cbv zeta.
  rewrite monthDiff_index, (Z.max_r 0 (end_ - start)) by lia.
  destruct (period =? "monthly")%string; [reflexivity|].
  destruct (period =? "weekly")%string; [reflexivity|].
  destruct (period =? "quarterly")%string; [reflexivity|].
  destruct (period =? "yearly")%string; [|reflexivity].
  destruct ((getMonth start <? getMonth end_)
            || ((getMonth end_ =? getMonth start) && (getDate start <=? getDate end_)));
    f_equal; f_equal; lia.
Qed.
Lemma parsed_amountOrZero b : parsedBudgetAmount b = amountOrZero b.
Proof.
  unfold parsedBudgetAmount, amountOrZero. cbv zeta.
  destruct (parseFloat (budget_amount b)); reflexivity.
Qed.


Lemma sumZ_app l1 l2 : sumZ (l1 ++ l2) = sumZ l1 + sumZ l2.
Proof. unfold sumZ. induction l1 as [|a l1 IH]; cbn; [reflexivity|]. rewrite IH. lia. Qed.
Lemma spent_insert before x after :
  counted x = true ->
  spent (before ++ x :: after) = spent (before ++ after) + value (expenseAmount x).
Proof.
  intros Hc. unfold spent. rewrite !filter_app. cbn [filter]. rewrite Hc.
  rewrite !map_app, !sumZ_app. cbn [map]. unfold sumZ at 2. cbn [fold_right].
  fold (sumZ (map (fun e => value (expenseAmount e)) (filter counted after))). lia.
Qed.

Lemma spentIn_insert c before x after :
  counted x = true -> categoryOf x = c ->
  spentIn c (before ++ x :: after)
  = spentIn c (before ++ after) + value (expenseAmount x).
Proof.
  intros Hc Hx. unfold spentIn. rewrite !filter_app. cbn [filter].
  rewrite Hc, Hx, String.eqb_refl. cbn [andb].
  rewrite !map_app, !sumZ_app. cbn [map]. unfold sumZ at 2. cbn [fold_right].
  match goal with
  | |- context [fold_right Z.add 0 ?l] => fold (sumZ l)
  end. lia.
Qed.


Lemma month_names_plain expenses k :
  In k (map fst (monthTotals expenses)) -> inherited k = false /\ isIndex k = false.
Proof.
  intros Hk. rewrite monthTotals_tally, tally_names in Hk by apply tidy_nil.
  destruct Hk as [[]|(_ & x & _ & Hkx)]. apply (monthKeyOf_plain x k Hkx).
Qed.



Lemma monthly_amount amount start end_ :
  adjustedBudgetAmount "monthly" amount start end_
  = times amount (Z.max 1 (monthIndex end_ - monthIndex start + 1)).
Proof.
  unfold adjustedBudgetAmount. cbn [String.eqb Ascii.eqb Bool.eqb].
  cbv zeta. rewrite monthDiff_index. reflexivity.
Qed.

Lemma unknown_amount period amount start end_ :
  period <> "monthly" -> period <> "weekly" ->
  period <> "quarterly" -> period <> "yearly" ->
  adjustedBudgetAmount period amount start end_ = amount.
Proof.
  intros Hm Hw Hq Hy. unfold adjustedBudgetAmount.
  destruct (String.eqb_spec period "monthly"); [contradiction|].
  destruct (String.eqb_spec period "weekly"); [contradiction|].
  destruct (String.eqb_spec period "quarterly"); [contradiction|].
  destruct (String.eqb_spec period "yearly"); [contradiction|].
  reflexivity.
Qed.

Lemma compareBudgets_In totals start end_ budgets b entry :
  In b budgets -> compareBudget totals start end_ b = Some entry ->
  In entry (compareBudgets totals start end_ budgets).
Proof.
  intros Hb He. rewrite compareBudgets_entries. apply in_flat_map.
  exists b. split; [exact Hb|]. rewrite He. left. reflexivity.
Qed.

End HandlerFacts.

(** * The claims *)

Section Claims.

Context {host : Host}.
Import Calendar CalendarFacts.

(** C2. A monthly budget is multiplied by
    [max(1, (endYear*12 + endMonth) - (startYear*12 + startMonth) + 1)],
    the years and months being those of the two bounds, which moving
    each bound to the first of its month leaves unchanged.  Hence a range
    inside one calendar month leaves the amount as it is, and a range
    that runs from a day of one month to the same day of the month
    [N - 1] months later multiplies it by [N]. *)
Theorem monthly_normalization (amount : number) (start end_ : Z) :
  start <= end_ ->
  let adjusted := adjustedBudgetAmount "monthly" amount start end_ in
  let first t := setDate t 1 in
  adjusted
  = times amount
      (Z.max 1 ((getFullYear (first end_) * 12 + getMonth (first end_))
                - (getFullYear (first start) * 12 + getMonth (first start)) + 1))
  /\ (getDate (first start) = 1 /\ getDate (first end_) = 1
      /\ monthIndex (first start) = monthIndex start
      /\ monthIndex (first end_) = monthIndex end_)
  /\ 1 <= monthIndex end_ - monthIndex start + 1
  /\ (monthIndex start = monthIndex end_ -> adjusted = amount)
  /\ (forall N, 1 <= N ->
        monthIndex end_ = monthIndex start + (N - 1) ->
        getDate end_ = getDate start ->
        adjusted = times amount N)
  /\ (forall N, 1 <= N -> getDate start <= 28 ->
        adjustedBudgetAmount "monthly" amount start (monthsLater (N - 1) start)
        = times amount N).
Proof.
  intros Hle adjusted first.
  pose proof (monthly_amount amount) as Hadj.
  destruct (setDate_first start) as (Hy1 & Hm1 & Hd1).
  destruct (setDate_first end_) as (Hy2 & Hm2 & Hd2).
  assert (Hi1 : monthIndex (first start) = monthIndex start)
    by (unfold monthIndex, first; rewrite Hy1, Hm1; reflexivity).
  assert (Hi2 : monthIndex (first end_) = monthIndex end_)
    by (unfold monthIndex, first; rewrite Hy2, Hm2; reflexivity).
  repeat split; try assumption.
  - subst adjusted. rewrite Hadj. unfold monthIndex in Hi1, Hi2.
    fold (first start) (first end_) in *. do 2 f_equal. unfold monthIndex. lia.
  - pose proof (monthIndex_mono start end_ Hle). lia.
  - intros Heq. subst adjusted. rewrite Hadj, Heq.
    replace (Z.max 1 (monthIndex end_ - monthIndex end_ + 1)) with 1 by lia.
    apply times_one.
  - intros N HN Hidx _. subst adjusted. rewrite Hadj. f_equal. lia.
  - intros N HN Hd. rewrite Hadj.
    destruct (monthsLater_fields (N - 1) start Hd) as [-> _]. f_equal. lia.
Qed.


(** C3. The three validation failures are told apart in order: a bound
    that is absent or empty gives InvalidInput; otherwise a bound that
    [Date] cannot read gives InvalidFormat; otherwise an end before the
    start gives InvalidRange.  Whenever one of them is the answer, no
    query has been sent to the store. *)
Theorem validation_outcomes (st : Store) (req : Request) :
  let missing :=
    negb (str_truthy (startDate req)) || negb (str_truthy (endDate req)) in
  let start := newDateParam (startDate req) in
  let end_ := newDateParam (endDate req) in
  let log := fst (getReports st req) in
  let answer := snd (getReports st req) in
  (answer = InvalidInput <-> missing = true)
  /\ (answer = InvalidFormat
      <-> missing = false /\ (start = None \/ end_ = None))
  /\ (answer = InvalidRange
      <-> missing = false
          /\ exists s e, start = Some s /\ end_ = Some e /\ e < s)
  /\ (answer = InvalidInput \/ answer = InvalidFormat \/ answer = InvalidRange ->
      log = []).
Proof.
  cbv zeta.
  unfold getReports, handler, bind, reject_if, validDates, findExpenses, findBudgets.
  destruct (negb (str_truthy (startDate req)) || negb (str_truthy (endDate req))) eqn:Hm.
  { cbn. unfold InvalidInput, InvalidFormat, InvalidRange.
    repeat split; try tauto; try discriminate; intros; try reflexivity.
    - destruct H; discriminate.
    - destruct H; discriminate. }
  cbn [ret respond].
  destruct (newDateParam (startDate req)) as [s|] eqn:Hs;
    [destruct (newDateParam (endDate req)) as [e|] eqn:He|].
  - cbn [ret]. destruct (Z.ltb_spec e s) as [Hlt|Hge].
    + cbn. unfold InvalidInput, InvalidFormat, InvalidRange.
      repeat split; try discriminate; intros; try reflexivity.
      * destruct H as [_ [H|H]]; discriminate.
      * exists s, e. auto.
    + cbn [ret app].
      destruct (Expense_findAll st (user_id req) s e);
        [destruct (Budget_findAll st (user_id req))|];
        cbn; unfold InvalidInput, InvalidFormat, InvalidRange, ServerError;
        (repeat split; try discriminate; intros;
         [ destruct H as [_ [H|H]]; discriminate
         | destruct H as [_ (s' & e' & H1 & H2 & H3)];
           inversion H1; inversion H2; subst; lia
         | destruct H as [H|[H|H]]; discriminate ]).
  - cbn. unfold InvalidInput, InvalidFormat, InvalidRange.
    repeat split; try discriminate; intros; try reflexivity; auto.
    destruct H as [_ (s' & e' & H1 & H2 & H3)]. discriminate.
  - cbn. unfold InvalidInput, InvalidFormat, InvalidRange.
    repeat split; try discriminate; intros; try reflexivity; auto.
    destruct H as [_ (s' & e' & H1 & H2 & H3)]. discriminate.
Qed.


(** C4, where the code departs from it.  The actual column is read with
    [categoryTotals[category] || 0], and an object literal answers for
    the names [Object.prototype] defines: a budget whose category is such
    a name (toString, constructor, ...) gets an entry whose actual is the
    inherited member, or the text it has become once an expense was
    added under that name, and whose difference is NaN, where the
    specification asks for the category total or 0 and for budget minus
    actual. *)
Theorem comparison_reads_prototype
    (st : Store) (req : Request) (start end_ : Z)
    (expenses : list Expense) (budgets : list Budget) (b : Budget) (c : string) :
  Served st req start end_ expenses budgets ->
  In b budgets ->
  budget_category b = Some c ->
  inherited c = true ->
  exists data entry,
    snd (getReports st req) = Status200 data
    /\ In entry (budgetComparison data)
    /\ bc_category entry = c
    /\ bc_budget entry
       = normalizedAmount (str_or (budget_period b) "monthly")
                          (amountOrZero b) start end_
    /\ (bc_actual entry = Member \/ bc_actual entry = Text)
    /\ bc_difference entry = NaN
    /\ entry <> comparisonOf start end_ expenses b.
Proof.
  intros Hs Hb Hcat Hc. rewrite (getReports_served _ _ _ _ _ _ Hs). cbn [snd].
  assert (Hne : (c =? "")%string = false).
  { destruct (String.eqb_spec c "") as [->|]; [discriminate Hc|reflexivity]. }
  assert (Hcmp : compareBudget (categoryTotals expenses) start end_ b
                 = Some (mkBudgetComparison c
                           (adjustedBudgetAmount (str_or (budget_period b) "monthly")
                              (parsedBudgetAmount b) start end_)
                           (read_or_zero (get (categoryTotals expenses) c))
                           (minus (adjustedBudgetAmount (str_or (budget_period b) "monthly")
                                     (parsedBudgetAmount b) start end_)
                                  (read_or_zero (get (categoryTotals expenses) c))))).
  { unfold compareBudget. rewrite Hcat. cbn [str_truthy str_or]. rewrite Hne. reflexivity. }
  eexists. eexists. split; [reflexivity|]. split.
  - unfold buildReport. cbn [budgetComparison].
    eapply compareBudgets_In; [exact Hb|exact Hcmp].
  - cbn [bc_category bc_budget bc_actual bc_difference].
    split; [reflexivity|].
    split; [rewrite parsed_amountOrZero; apply adjusted_normalized, Hs|].
    destruct (actual_member expenses c Hc) as [Ha|Ha]; rewrite Ha;
      (split; [auto|]); (split; [reflexivity|]);
      unfold comparisonOf; intros [= _ _ H _]; discriminate H.
Qed.




(** C6, as the code has it.  A record whose amount is there but does not
    read as a number is left out of all three aggregates.  A record whose
    amount is missing, null, empty or zero is no such record: it counts
    with amount 0 and its category is listed.  A record whose date does
    not read as a date is left out of the month totals, and of those
    only: its amount, when it reads as a number, is still added to
    [totalExpenses] and to the entry of its category.  None of these
    records keeps the report from being sent. *)
Theorem defective_records
    (start end_ : Z) (before after : list Expense) (x : Expense)
    (budgets : list Budget) :
  let all := (before ++ x :: after)%list in
  let with_x := buildReport start end_ all budgets in
  let without := buildReport start end_ (before ++ after) budgets in
  (counted x = false ->
     truthy (expense_amount x) = true
     /\ totalExpenses with_x = totalExpenses without
     /\ expensesByCategory with_x = expensesByCategory without
     /\ expensesByMonth with_x = expensesByMonth without)
  /\ (truthy (expense_amount x) = false ->
        expenseAmount x = Fin 0
        /\ counted x = true
        /\ (categoryOf x <> "__proto__" ->
            In (categoryOf x) (map ct_category (expensesByCategory with_x))))
  /\ (dated x = false ->
        expensesByMonth with_x = expensesByMonth without
        /\ (counted x = true -> exactlyAddable all ->
            totalExpenses with_x = add (totalExpenses without) (expenseAmount x)
            /\ (inherited (categoryOf x) = false ->
                In (mkCategoryTotal (categoryOf x)
                      (add (addedIn (categoryOf x) (before ++ after)) (expenseAmount x)))
                   (expensesByCategory with_x))))
  /\ (forall st req,
        Served st req start end_ all budgets ->
        snd (getReports st req) = Status200 with_x).
Proof.
  cbv zeta. unfold buildReport.
  cbn [totalExpenses expensesByCategory expensesByMonth].
  assert (Hzero : truthy (expense_amount x) = false -> expenseAmount x = Fin 0).
  { intros Hx. unfold expenseAmount, or_else. rewrite Hx. reflexivity. }
  split; [|split; [|split]].
  - intros Hc. split.
    { destruct (truthy (expense_amount x)) eqn:Ht; [reflexivity|].
      unfold counted in Hc. rewrite (Hzero eq_refl) in Hc. discriminate Hc. }
    unfold counted in Hc. apply negb_false_iff in Hc.
    unfold sumExpenses, categoryTotals, monthTotals.
    rewrite !(fold_left_skip _ before x after); [auto| | |].
    + intros o. unfold monthStep. destruct (newDate (expense_date x)); [|reflexivity].
      cbv zeta. rewrite Hc. reflexivity.
    + intros o. unfold categoryStep. cbv zeta. rewrite Hc. reflexivity.
    + intros n. cbv zeta. rewrite Hc. reflexivity.
  - intros Hx. pose proof (Hzero Hx) as Ha.
    assert (Hc : counted x = true) by (unfold counted; rewrite Ha; reflexivity).
    split; [exact Ha|]. split; [exact Hc|]. intros Hp.
    rewrite toCategoryList_categories. apply category_names. split; [exact Hp|].
    exists x. split; [apply in_elt|]. split; [exact Hc|reflexivity].
  - intros Hd. unfold dated in Hd. split.
    + unfold monthTotals. rewrite (fold_left_skip _ before x after); [reflexivity|].
      intros o. unfold monthStep. destruct (newDate (expense_date x)); [discriminate|reflexivity].
    + intros Hc _. pose proof Hc as Hn. unfold counted in Hn.
      destruct (expenseAmount x) as [|z] eqn:Ha; [discriminate|]. split.
      * rewrite !sumExpenses_spent, spent_insert, Ha by exact Hc. reflexivity.
      * intros Hi. unfold toCategoryList. apply in_map_iff.
        exists (categoryOf x).
        assert (Hin : In (categoryOf x) (keys (categoryTotals (before ++ x :: after)))).
        { apply category_names. split.
          - intros Hp. rewrite Hp in Hi. discriminate Hi.
          - exists x. split; [apply in_elt|]. split; [exact Hc|reflexivity]. }
        split; [|exact Hin]. f_equal.
        rewrite category_amount by assumption.
        rewrite !addedIn_spentIn, (spentIn_insert _ _ _ _ Hc eq_refl), Ha. reflexivity.
  - intros st req Hs. rewrite (getReports_served _ _ _ _ _ _ Hs). reflexivity.
Qed.



(** C7, as the code has it.  Leaving aside the names that
    [Object.prototype] defines, the category list has exactly one entry
    for each category under which a counted expense is filed (an expense
    without a category goes under "other"), and the entry's amount is
    what adding the amounts of those expenses to 0, in the order of the
    records, gives, whether or not that is zero. *)
Theorem category_entries
    (start end_ : Z) (expenses : list Expense) (budgets : list Budget) :
  let entries := expensesByCategory (buildReport start end_ expenses budgets) in
  NoDup (map ct_category entries)
  /\ (forall c, inherited c = false ->
        (In c (map ct_category entries)
         <-> exists x, In x expenses /\ counted x = true /\ categoryOf x = c))
  /\ (forall entry, In entry entries ->
        inherited (ct_category entry) = false ->
        ct_amount entry = Num (addedIn (ct_category entry) expenses)).
Proof.
  cbv zeta. unfold buildReport. cbn [expensesByCategory].
  rewrite toCategoryList_categories.
  split; [apply keys_NoDup, categoryTotals_tidy|split].
  - intros c Hc. rewrite category_names. split; [intros [_ H]; exact H|].
    intros H. split; [|exact H]. intros ->. discriminate Hc.
  - intros entry Hin. unfold toCategoryList in Hin. apply in_map_iff in Hin.
    destruct Hin as (k & <- & Hk). cbn [ct_amount ct_category].
    intros Hi. apply category_amount; assumption.
Qed.


(** C8, as the code has it.  A request that passes validation keeps its
    two bounds as the instants [Date] read, time of day included: the
    expense query is sent with exactly these instants, the report is
    built from them, and the weekly period count is taken from their
    difference in milliseconds. *)
Theorem bounds_as_parsed
    (st : Store) (req : Request) (start end_ : Z)
    (expenses : list Expense) (budgets : list Budget) :
  Served st req start end_ expenses budgets ->
  Some start = newDateParam (startDate req)
  /\ Some end_ = newDateParam (endDate req)
  /\ getReports st req
     = ([FindExpenses (user_id req) start end_; FindBudgets (user_id req)],
        Status200 (buildReport start end_ expenses budgets))
  /\ (forall amount,
        adjustedBudgetAmount "weekly" amount start end_
        = times amount (Z.max 1 (ceilDiv (ceilDiv (end_ - start) msPerDay) 7))).
Proof.
  intros Hs. pose proof Hs as (_ & _ & Hps & Hpe & Hle & _).
  repeat split; try (symmetry; assumption).
  - apply getReports_served, Hs.
  - intros amount. unfold adjustedBudgetAmount.
    cbn [String.eqb Ascii.eqb Bool.eqb]. cbv zeta.
    rewrite (Z.max_r 0 (end_ - start)) by lia. reflexivity.
Qed.

(** C9. A budget whose period is a non-empty string other than weekly,
    monthly, quarterly and yearly keeps its amount: the dispatch returns
    it unscaled, and the report is sent with the budget's entry carrying
    the amount as parsed. *)
Theorem unknown_period_unscaled
    (period : string) (amount : number) (start end_ : Z) :
  period <> "" ->
  period <> "weekly" -> period <> "monthly" ->
  period <> "quarterly" -> period <> "yearly" ->
  adjustedBudgetAmount (str_or (Some period) "monthly") amount start end_ = amount
  /\ forall st req expenses budgets b,
       Served st req start end_ expenses budgets ->
       In b budgets ->
       budget_period b = Some period ->
       str_truthy (budget_category b) = true ->
       exists data,
         snd (getReports st req) = Status200 data
         /\ exists entry,
              In entry (budgetComparison data)
              /\ bc_category entry = str_or (budget_category b) ""
              /\ bc_budget entry = parsedBudgetAmount b.
Proof.
  intros He Hw Hm Hq Hy.
  assert (Hp : str_or (Some period) "monthly" = period).
  { cbn. destruct (String.eqb_spec period ""); [contradiction|reflexivity]. }
  split.
  - rewrite Hp. apply unknown_amount; assumption.
  - intros st req expenses budgets b Hs Hb Hper Hcat.
    rewrite (getReports_served _ _ _ _ _ _ Hs). cbn [snd].
    eexists. split; [reflexivity|].
    unfold buildReport. cbn [budgetComparison].
    eexists. split.
    + eapply compareBudgets_In; [exact Hb|].
      unfold compareBudget. rewrite Hcat. cbn [negb]. reflexivity.
    + cbn [bc_category bc_budget]. split; [reflexivity|].
      rewrite Hper, Hp. apply unknown_amount; assumption.
Qed.

(** C10. A budget whose period is missing or empty is handled as a
    monthly one: its entry is the entry of the same budget with period
    "monthly", and the budget column is the amount times the number of
    months of the reporting window, not the bare amount of the
    unknown-period branch. *)
Theorem missing_period_monthly
    (totals : object) (start end_ : Z) (b : Budget) :
  budget_period b = None \/ budget_period b = Some "" ->
  compareBudget totals start end_ b
  = compareBudget totals start end_
      (mkBudget (budget_id b) (budget_amount b) (budget_category b) (Some "monthly"))
  /\ (str_truthy (budget_category b) = true ->
      exists entry,
        compareBudget totals start end_ b = Some entry
        /\ bc_budget entry
           = times (parsedBudgetAmount b)
                   (Z.max 1 (monthIndex end_ - monthIndex start + 1))).
Proof.
  intros Hp.
  assert (Hs : str_or (budget_period b) "monthly" = "monthly")
    by (destruct Hp as [-> | ->]; reflexivity).
  split.
  - unfold compareBudget. cbn [budget_category budget_period budget_amount].
    rewrite Hs. reflexivity.
  - intros Hcat. unfold compareBudget. rewrite Hcat. cbn [negb].
    eexists. split; [reflexivity|]. cbn [bc_budget].
    rewrite Hs. apply monthly_amount.
Qed.

End Claims.

(** * Worked instances *)

Section East.
Import Calendar CalendarFacts.

(** East of UTC by less than a day, a UTC midnight falls on the same
    local day. *)
Lemma Day_east tza t :
  0 <= tza < msPerDay -> TimeWithinDay t = 0 -> Day (t + tza) = Day t.
Proof. unfold Day, TimeWithinDay, msPerDay. intros. zdiv. Qed.

Lemma monthKey_east tza t :
  0 <= tza < msPerDay -> TimeWithinDay t = 0 ->
  @monthKey (Iso.host tza) t = @monthKey (Iso.host 0) t.
Proof.
  intros Htz Ht. unfold monthKey, getFullYear, getMonth, YearFromTime, MonthFromTime, LocalTime.
  cbn [LocalTZA Iso.host]. rewrite Day_east, Z.add_0_r by assumption. reflexivity.
Qed.

Lemma monthIndex_east tza t :
  0 <= tza < msPerDay -> TimeWithinDay t = 0 ->
  @monthIndex (Iso.host tza) t = @monthIndex (Iso.host 0) t.
Proof.
  intros Htz Ht. unfold monthIndex, getFullYear, getMonth, YearFromTime, MonthFromTime, LocalTime.
  cbn [LocalTZA Iso.host]. rewrite Day_east, Z.add_0_r by assumption. reflexivity.
Qed.

Lemma fold_left_ext_in {A B} (f g : A -> B -> A) l a :
  (forall a' x, In x l -> f a' x = g a' x) -> fold_left f l a = fold_left g l a.
Proof.
  revert a. induction l as [|x l IH]; intros a H; cbn [fold_left]; [reflexivity|].
  rewrite H by (left; reflexivity). apply IH. intros a' y Hy. apply H. right. exact Hy.
Qed.

End East.

(** C1, as the code has it.  On a server whose local time is UTC or east
    of it by less than a day, the request for 2024-01-01 to 2024-02-29
    over the three expenses and the monthly Food budget of 100 is
    answered with total 100, Food 80 and Transport 20, 2024-01 70 and
    2024-02 30, and the comparison Food: budget 200, actual 80,
    difference 120. *)
Theorem scenario_report (tza : Z) :
  0 <= tza < Calendar.msPerDay ->
  @getReports (Iso.host tza) Scenario.store Scenario.request
  = ([FindExpenses 7 Scenario.start Scenario.end_; FindBudgets 7],
     Status200 Scenario.report).
Proof.
  intros Htz.
  rewrite (@getReports_served (Iso.host tza) Scenario.store Scenario.request
             Scenario.start Scenario.end_ Scenario.expenses Scenario.budgets)
    by (repeat split; try reflexivity; discriminate).
  cbn [user_id Scenario.request]. do 2 f_equal.
  assert (Hmonths : @toMonthList (@monthTotals (Iso.host tza) Scenario.expenses)
                    = expensesByMonth Scenario.report).
  { replace (@monthTotals (Iso.host tza) Scenario.expenses)
      with (@monthTotals (Iso.host 0) Scenario.expenses); [reflexivity|].
    unfold monthTotals. apply fold_left_ext_in.
    intros o x [<-|[<-|[<-|[]]]]; unfold monthStep; cbn [expense_date newDate].
    - change (@Date_parse (Iso.host tza) "2024-01-05") with (Some 1704412800000).
      cbv beta iota zeta. rewrite monthKey_east by (assumption || reflexivity).
      reflexivity.
    - change (@Date_parse (Iso.host tza) "2024-02-10") with (Some 1707523200000).
      cbv beta iota zeta. rewrite monthKey_east by (assumption || reflexivity).
      reflexivity.
    - change (@Date_parse (Iso.host tza) "2024-01-20") with (Some 1705708800000).
      cbv beta iota zeta. rewrite monthKey_east by (assumption || reflexivity).
      reflexivity. }
  assert (Hbudgets : @compareBudgets (Iso.host tza)
                       (@categoryTotals (Iso.host tza) Scenario.expenses)
                       Scenario.start Scenario.end_ Scenario.budgets
                     = budgetComparison Scenario.report).
  { unfold compareBudgets, Scenario.budgets. cbn [fold_left].
    unfold compareBudget.
    cbn [budget_category budget_period str_truthy str_or String.eqb Ascii.eqb Bool.eqb negb].
    cbv zeta. rewrite monthly_amount.
    rewrite (monthIndex_east tza Scenario.start), (monthIndex_east tza Scenario.end_)
      by (assumption || reflexivity).
    vm_compute. reflexivity. }
  assert (Htotal : @sumExpenses (Iso.host tza) Scenario.expenses
                   = totalExpenses Scenario.report)
    by (vm_compute; reflexivity).
  assert (Hcats : @toCategoryList (@categoryTotals (Iso.host tza) Scenario.expenses)
                  = expensesByCategory Scenario.report)
    by (vm_compute; reflexivity).
  unfold buildReport. rewrite Htotal, Hcats, Hmonths, Hbudgets. reflexivity.
Qed.

Lemma scenario_report_utc :
  0 <= 0 < Calendar.msPerDay
  /\ @getReports (Iso.host 0) Scenario.store Scenario.request
     = ([FindExpenses 7 Scenario.start Scenario.end_; FindBudgets 7],
        Status200 Scenario.report).
Proof.
  split; [unfold Calendar.msPerDay; lia|].
  apply (scenario_report 0). unfold Calendar.msPerDay. lia.
Defined.

(** Five hours west of UTC the same request is answered with a budget of
    300: midnight UTC of 1 January is still December there, so three
    months are counted. *)
Lemma scenario_west_of_utc :
  @getReports (Iso.host (-18000000)) Scenario.store Scenario.request
  = ([FindExpenses 7 Scenario.start Scenario.end_; FindBudgets 7],
     Status200 Scenario.report_west)
  /\ Status200 Scenario.report_west <> Status200 Scenario.report.
Proof. split; [vm_compute; reflexivity|discriminate]. Qed.

Lemma Served_scenario (budgets : list Budget) :
  @Served (Iso.host 0)
    (mkStore (fun _ _ _ => Some Scenario.expenses) (fun _ => Some budgets))
    Scenario.request Scenario.start Scenario.end_ Scenario.expenses budgets.
Proof. repeat split; try reflexivity. discriminate. Qed.

(** A monthly budget of 100 from 15 January to 15 March 2024 becomes 300. *)
Lemma monthly_normalization_witness :
  Samples.mid_january <= Samples.mid_march
  /\ @adjustedBudgetAmount (Iso.host 0) "monthly" (Fin 100)
       Samples.mid_january Samples.mid_march
     = times (Fin 100) 3.
Proof.
  assert (Hle : Samples.mid_january <= Samples.mid_march) by (vm_compute; discriminate).
  split; [exact Hle|].
  destruct (@monthly_normalization (Iso.host 0) (Fin 100)
              Samples.mid_january Samples.mid_march Hle)
    as (_ & _ & _ & _ & Hn & _).
  apply (Hn 3); [lia|reflexivity|reflexivity].
Defined.

Lemma Served_toString :
  @Served (Iso.host 0) Members.toString_store Scenario.request
     Scenario.start Scenario.end_ [] Members.toString_budget.
Proof. repeat split; try reflexivity. discriminate. Qed.

(** A monthly budget of 100 for a category called "toString", and no
    expenses: the entry has the inherited [toString] as its actual and
    NaN as its difference. *)
Lemma comparison_reads_prototype_witness :
  @Served (Iso.host 0) Members.toString_store Scenario.request
     Scenario.start Scenario.end_ [] Members.toString_budget
  /\ In (mkBudget 1 (JNum (Fin 100)) (Some "toString") (Some "monthly"))
        Members.toString_budget
  /\ inherited "toString" = true
  /\ exists data entry,
       snd (@getReports (Iso.host 0) Members.toString_store Scenario.request)
       = Status200 data
       /\ In entry (budgetComparison data)
       /\ bc_category entry = "toString"
       /\ (bc_actual entry = Member \/ bc_actual entry = Text)
       /\ bc_difference entry = NaN.
Proof.
  split; [exact Served_toString|].
  split; [left; reflexivity|]. split; [reflexivity|].
  destruct (@comparison_reads_prototype (Iso.host 0) Members.toString_store
              Scenario.request Scenario.start Scenario.end_ [] Members.toString_budget
              (mkBudget 1 (JNum (Fin 100)) (Some "toString") (Some "monthly")) "toString"
              Served_toString (or_introl eq_refl) eq_refl eq_refl)
    as (data & entry & Hd & Hin & Hc & _ & Ha & Hn & _).
  exists data, entry. repeat split; assumption.
Defined.








(** An expense worth 30 whose date cannot be read is missing from the
    month totals but is part of the total and of its category. *)
Lemma undated_record_counted :
  let with_x := @buildReport (Iso.host 0) Scenario.start Scenario.end_
                  Samples.with_undated [] in
  @dated (Iso.host 0) Samples.undated = false
  /\ In Samples.undated Samples.with_undated
  /\ totalExpenses with_x = Fin 80
  /\ expensesByCategory with_x = [mkCategoryTotal "Food" (Fin 80)]
  /\ expensesByMonth with_x = [mkMonthTotal "2024-01" (Fin 50)].
Proof.
  cbv zeta. repeat split; try (vm_compute; reflexivity).
  right. left. reflexivity.
Qed.

(** Expenses without an amount, or with an amount of zero, leave entries
    whose total is zero. *)
Lemma zero_total_listed :
  expensesByCategory
    (@buildReport (Iso.host 0) Scenario.start Scenario.end_ Samples.zero_amounts [])
  = [mkCategoryTotal "Food" (Fin 0); mkCategoryTotal "Transport" (Fin 0)].
Proof. vm_compute. reflexivity. Qed.

(** Two requests for the same calendar days are answered differently,
    the store is asked for the instants as given, and a request within
    one day is refused for its time of day. *)
Lemma time_of_day_counts :
  Calendar.Day 1704672000000 = Calendar.Day 1704715200000
  /\ @getReports (Iso.host 0) Samples.weekly_store Samples.until_midnight
     = ([FindExpenses 7 1704067200000 1704672000000; FindBudgets 7],
        Status200 (Samples.weekly_report 100))
  /\ @getReports (Iso.host 0) Samples.weekly_store Samples.until_noon
     = ([FindExpenses 7 1704067200000 1704715200000; FindBudgets 7],
        Status200 (Samples.weekly_report 200))
  /\ Samples.weekly_report 100 <> Samples.weekly_report 200
  /\ @getReports (Iso.host 0) Samples.weekly_store Samples.same_day
     = ([], InvalidRange).
Proof.
  repeat split; try (vm_compute; reflexivity). discriminate.
Qed.

Lemma Served_until_noon :
  @Served (Iso.host 0) Samples.weekly_store Samples.until_noon
     1704067200000 1704715200000 [] Samples.weekly.
Proof. repeat split; try reflexivity. discriminate. Qed.

Lemma bounds_as_parsed_witness :
  @Served (Iso.host 0) Samples.weekly_store Samples.until_noon
     1704067200000 1704715200000 [] Samples.weekly
  /\ @getReports (Iso.host 0) Samples.weekly_store Samples.until_noon
     = ([FindExpenses 7 1704067200000 1704715200000; FindBudgets 7],
        Status200 (@buildReport (Iso.host 0) 1704067200000 1704715200000
                     [] Samples.weekly)).
Proof.
  split; [exact Served_until_noon|].
  exact (proj1 (proj2 (proj2
           (@bounds_as_parsed (Iso.host 0) Samples.weekly_store Samples.until_noon
              1704067200000 1704715200000 [] Samples.weekly Served_until_noon)))).
Defined.

(** A budget of 50 with period "biannual" stays 50. *)
Lemma unknown_period_unscaled_witness :
  "biannual" <> "" /\ "biannual" <> "weekly" /\ "biannual" <> "monthly"
  /\ "biannual" <> "quarterly" /\ "biannual" <> "yearly"
  /\ @adjustedBudgetAmount (Iso.host 0) (str_or (Some "biannual") "monthly")
       (Fin 50) Scenario.start Scenario.end_
     = Fin 50.
Proof.
  assert (H1 : "biannual" <> "") by discriminate.
  assert (H2 : "biannual" <> "weekly") by discriminate.
  assert (H3 : "biannual" <> "monthly") by discriminate.
  assert (H4 : "biannual" <> "quarterly") by discriminate.
  assert (H5 : "biannual" <> "yearly") by discriminate.
  do 5 (split; [assumption|]).
  exact (proj1 (@unknown_period_unscaled (Iso.host 0) "biannual" (Fin 50)
                  Scenario.start Scenario.end_ H1 H2 H3 H4 H5)).
Defined.

(** The budget of 60 without a period is compared as a monthly one. *)
Lemma missing_period_monthly_witness :
  let b := mkBudget 6 (JNum (Fin 60)) (Some "Rent") None in
  (budget_period b = None \/ budget_period b = Some "")
  /\ @compareBudget (Iso.host 0) [] Scenario.start Scenario.end_ b
     = @compareBudget (Iso.host 0) [] Scenario.start Scenario.end_
         (mkBudget 6 (JNum (Fin 60)) (Some "Rent") (Some "monthly")).
Proof.
  cbv zeta. split; [left; reflexivity|].
  exact (proj1 (@missing_period_monthly (Iso.host 0) [] Scenario.start Scenario.end_
                  (mkBudget 6 (JNum (Fin 60)) (Some "Rent") None)
                  (or_introl eq_refl))).
Defined.

(** * Further properties *)

From Stdlib Require DecimalZ DecimalPos.

(** ** Period counts *)

Section Periods.

Context {host : Host}.
Import Calendar CalendarFacts.

(** The weekly count is the least positive number of seven-day spans
    that cover the range. *)
Theorem weekly_least_cover (amount : number) (start end_ : Z) :
  start <= end_ ->
  exists weeks,
    adjustedBudgetAmount "weekly" amount start end_ = times amount weeks
    /\ 1 <= weeks
    /\ end_ - start <= weeks * (7 * msPerDay)
    /\ (forall w, 1 <= w -> end_ - start <= w * (7 * msPerDay) -> weeks <= w).
Proof.
  intros Hle.
  exists (Z.max 1 (ceilDiv (ceilDiv (Z.max 0 (end_ - start)) msPerDay) 7)).
  split; [reflexivity|].
  rewrite (Z.max_r 0 (end_ - start)) by lia.
  unfold ceilDiv, msPerDay.
  repeat split; [lia| |intros w Hw Hc]; zdiv.
Qed.

(** The quarterly count is the least positive number of three-month
    spans that cover the months of the range. *)
Theorem quarterly_least_cover (amount : number) (start end_ : Z) :
  start <= end_ ->
  let months := monthIndex end_ - monthIndex start + 1 in
  exists quarters,
    adjustedBudgetAmount "quarterly" amount start end_ = times amount quarters
    /\ 1 <= quarters
    /\ months <= 3 * quarters <= months + 2.
Proof.
  intros Hle months.
  exists (Z.max 1 (ceilDiv (monthDiff start end_) 3)).
  split; [reflexivity|].
  rewrite monthDiff_index. fold months.
  assert (1 <= months) by (pose proof (monthIndex_mono start end_ Hle); subst months; lia).
  unfold ceilDiv. split; [lia|]. zdiv.
Qed.

Lemma DateFromDay_mono d d' :
  d <= d' -> YearFromDay d = YearFromDay d' -> MonthFromDay d = MonthFromDay d' ->
  DateFromDay d <= DateFromDay d'.
Proof.
  intros Hd Hy Hm. unfold DateFromDay, DayWithinYear. rewrite Hy, Hm. lia.
Qed.

Lemma MonthFromDay_mono d d' :
  d <= d' -> YearFromDay d = YearFromDay d' -> MonthFromDay d <= MonthFromDay d'.
Proof.
  intros Hd Hy. unfold MonthFromDay, DayWithinYear. rewrite Hy.
  apply monthOfYearDay_mono. lia.
Qed.

(** The yearly count is the difference of the calendar years, plus one
    when the end has reached the month and day of the start; for an
    ordered range the clamp to 1 is idle, and a range inside one
    calendar year counts once. *)
Theorem yearly_anniversaries (amount : number) (start end_ : Z) :
  start <= end_ ->
  let yearDiff := getFullYear end_ - getFullYear start in
  let reached :=
    (getMonth start <? getMonth end_)
    || ((getMonth end_ =? getMonth start) && (getDate start <=? getDate end_)) in
  adjustedBudgetAmount "yearly" amount start end_
  = times amount (yearDiff + if reached then 1 else 0)
  /\ 0 <= yearDiff
  /\ 1 <= yearDiff + (if reached then 1 else 0)
  /\ (getFullYear start = getFullYear end_ ->
      adjustedBudgetAmount "yearly" amount start end_ = amount).
Proof.
  intros Hle yearDiff reached.
  assert (Hd : Day (LocalTime start) <= Day (LocalTime end_))
    by (apply Day_mono; unfold LocalTime; lia).
  assert (Hy : 0 <= yearDiff).
  { subst yearDiff. unfold getFullYear, YearFromTime.
    pose proof (YearFromDay_mono _ _ Hd). lia. }
  assert (Hsame : getFullYear start = getFullYear end_ -> reached = true).
  { intros Heq. subst reached. unfold getFullYear, getMonth, getDate, YearFromTime,
      MonthFromTime, DateFromTime in *.
    pose proof (MonthFromDay_mono _ _ Hd Heq) as Hm.
    destruct (Z.ltb_spec (MonthFromDay (Day (LocalTime start)))
                         (MonthFromDay (Day (LocalTime end_)))) as [|Hge];
      [reflexivity|].
    assert (Hmeq : MonthFromDay (Day (LocalTime start))
                   = MonthFromDay (Day (LocalTime end_))) by lia.
    pose proof (DateFromDay_mono _ _ Hd Heq Hmeq).
    rewrite Hmeq, Z.eqb_refl. cbn [orb andb]. apply Z.leb_le. assumption. }
  assert (Hone : 1 <= yearDiff + (if reached then 1 else 0)).
  { destruct (Z.eq_dec (getFullYear start) (getFullYear end_)) as [Heq|Hne].
    - rewrite (Hsame Heq). lia.
    - subst yearDiff. destruct reached; lia. }
  assert (Hadj : adjustedBudgetAmount "yearly" amount start end_
                 = times amount (yearDiff + if reached then 1 else 0)).
  { unfold adjustedBudgetAmount. cbn [String.eqb Ascii.eqb Bool.eqb]. cbv zeta.
    fold yearDiff. fold reached. rewrite Z.max_r by exact Hone. reflexivity. }
  repeat split; try assumption.
  intros Heq. rewrite Hadj, (Hsame Heq). subst yearDiff. rewrite Heq.
  replace (getFullYear end_ - getFullYear end_ + 1) with 1 by lia.
  apply times_one.
Qed.

End Periods.

Section Counts.

Context {host : Host}.
Import Calendar CalendarFacts.

Lemma adjusted_periodCount period amount start end_ :
  adjustedBudgetAmount period amount start end_
  = times amount (periodCount period start end_).
Proof.
  unfold adjustedBudgetAmount, periodCount.
  repeat match goal with
         | |- context [(?p =? ?q)%string] => destruct (p =? q)%string
         end; cbv zeta; try reflexivity.
  symmetry. apply times_one.
Qed.

Lemma periodCount_pos period start end_ : 1 <= periodCount period start end_.
Proof.
  unfold periodCount.
  repeat match goal with
         | |- context [(?p =? ?q)%string] => destruct (p =? q)%string
         end; lia.
Qed.

(** Whatever the period and the range, the amount is multiplied by a
    whole number of periods that is at least one: normalization never
    lowers a budget that is not negative. *)
Theorem normalization_at_least_once
    (period : string) (amount : Z) (start end_ : Z) :
  exists count,
    1 <= count
    /\ adjustedBudgetAmount period (Fin amount) start end_ = Fin (amount * count)
    /\ (0 <= amount -> amount <= amount * count).
Proof.
  exists (periodCount period start end_).
  pose proof (periodCount_pos period start end_) as Hpos.
  split; [exact Hpos|]. split; [apply adjusted_periodCount|]. nia.
Qed.

Lemma ceilDiv_mono a b c : 0 < c -> a <= b -> ceilDiv a c <= ceilDiv b c.
Proof.
  intros Hc Hab. unfold ceilDiv.
  assert (- b / c <= - a / c) by (apply Z.div_le_mono; lia). lia.
Qed.

Lemma reached_mono_same_year d d' s :
  d <= d' -> YearFromDay d = YearFromDay d' ->
  ((MonthFromDay s <? MonthFromDay d)
   || ((MonthFromDay d =? MonthFromDay s) && (DateFromDay s <=? DateFromDay d))) = true ->
  ((MonthFromDay s <? MonthFromDay d')
   || ((MonthFromDay d' =? MonthFromDay s) && (DateFromDay s <=? DateFromDay d'))) = true.
Proof.
  intros Hd Hy H.
  pose proof (MonthFromDay_mono d d' Hd Hy) as Hm.
  apply orb_true_iff in H. apply orb_true_iff.
  destruct H as [H|H].
  - apply Z.ltb_lt in H. left. apply Z.ltb_lt. lia.
  - apply andb_true_iff in H. destruct H as [He Hl].
    apply Z.eqb_eq in He. apply Z.leb_le in Hl.
    destruct (Z.eq_dec (MonthFromDay d) (MonthFromDay d')) as [Heq|Hne].
    + right. apply andb_true_iff. split; [apply Z.eqb_eq; lia|].
      apply Z.leb_le. pose proof (DateFromDay_mono d d' Hd Hy Heq). lia.
    + left. apply Z.ltb_lt. lia.
Qed.

Lemma periodCount_mono period start end_ end' :
  end_ <= end' -> periodCount period start end_ <= periodCount period start end'.
Proof.
  intros Hle. unfold periodCount.
  assert (Hidx : monthIndex end_ <= monthIndex end') by (apply monthIndex_mono, Hle).
  destruct (period =? "monthly")%string.
  { rewrite !monthDiff_index. lia. }
  destruct (period =? "weekly")%string.
  { apply Z.max_le_compat_l. apply ceilDiv_mono; [lia|].
    apply ceilDiv_mono; [unfold msPerDay; lia|lia]. }
  destruct (period =? "quarterly")%string.
  { rewrite !monthDiff_index. apply Z.max_le_compat_l. apply ceilDiv_mono; lia. }
  destruct (period =? "yearly")%string; [|lia].
  apply Z.max_le_compat_l.
  unfold getFullYear, getMonth, getDate, YearFromTime, MonthFromTime, DateFromTime.
  assert (Hd : Day (LocalTime end_) <= Day (LocalTime end'))
    by (apply Day_mono; unfold LocalTime; lia).
  set (d := Day (LocalTime end_)) in *. set (d' := Day (LocalTime end')) in *.
  set (s := Day (LocalTime start)).
  pose proof (YearFromDay_mono d d' Hd) as Hy.
  destruct (Z.eq_dec (YearFromDay d) (YearFromDay d')) as [Heq|Hne].
  - rewrite Heq.
    destruct ((MonthFromDay s <? MonthFromDay d)
              || ((MonthFromDay d =? MonthFromDay s)
                  && (DateFromDay s <=? DateFromDay d))) eqn:Hr.
    + rewrite (reached_mono_same_year d d' s Hd Heq Hr). lia.
    + destruct ((MonthFromDay s <? MonthFromDay d') || _); lia.
  - destruct ((MonthFromDay s <? MonthFromDay d) || _);
      destruct ((MonthFromDay s <? MonthFromDay d') || _); lia.
Qed.

(** A longer range never gives a smaller budget: moving the end later
    keeps or raises the normalized amount of a budget that is not
    negative, for every period. *)
Theorem longer_range_no_smaller_budget
    (period : string) (amount : Z) (start end_ end' : Z) :
  0 <= amount -> end_ <= end' ->
  value (adjustedBudgetAmount period (Fin amount) start end_)
  <= value (adjustedBudgetAmount period (Fin amount) start end').
Proof.
  intros Ha Hle. rewrite !adjusted_periodCount. cbn [times value].
  apply Z.mul_le_mono_nonneg_l; [exact Ha|]. apply periodCount_mono, Hle.
Qed.

End Counts.

(** ** Outcomes of a request *)

Section Outcomes.

Context {host : Host}.

(** A store that rejects ends the request with a 500 and nothing else:
    when the expense query rejects, the budget query is never sent; when
    the budget query rejects, the expenses already fetched are dropped. *)
Theorem store_rejections (st : Store) (req : Request) (start end_ : Z) :
  str_truthy (startDate req) = true ->
  str_truthy (endDate req) = true ->
  newDateParam (startDate req) = Some start ->
  newDateParam (endDate req) = Some end_ ->
  start <= end_ ->
  (Expense_findAll st (user_id req) start end_ = None ->
   getReports st req
   = ([FindExpenses (user_id req) start end_], ServerError))
  /\ (forall expenses,
        Expense_findAll st (user_id req) start end_ = Some expenses ->
        Budget_findAll st (user_id req) = None ->
        getReports st req
        = ([FindExpenses (user_id req) start end_; FindBudgets (user_id req)],
           ServerError)).
Proof.
  intros Hs He Hps Hpe Hle.
  unfold getReports, handler, bind, reject_if, validDates, findExpenses, findBudgets.
  rewrite Hs, He, Hps, Hpe. cbn [negb orb ret].
  destruct (Z.ltb_spec end_ start) as [Hlt|_]; [lia|]. cbn [ret app].
  split.
  - intros ->. reflexivity.
  - intros expenses -> ->. reflexivity.
Qed.

(** The answer is a 200 exactly for the requests that pass validation
    against a store that resolves both queries, and the data sent is
    the report built from the two result sets. *)
Theorem answered_200 (st : Store) (req : Request) (data : Report) :
  snd (getReports st req) = Status200 data
  <-> exists start end_ expenses budgets,
        Served st req start end_ expenses budgets
        /\ data = buildReport start end_ expenses budgets.
Proof.
  split.
  - unfold getReports, handler, bind, reject_if, validDates, findExpenses, findBudgets, Served.
    destruct (str_truthy (startDate req)) eqn:Hs; cbn [negb orb respond ret snd];
      [|discriminate].
    destruct (str_truthy (endDate req)) eqn:He; cbn [negb orb respond ret snd];
      [|discriminate].
    destruct (newDateParam (startDate req)) as [s|] eqn:Hps; [|discriminate].
    destruct (newDateParam (endDate req)) as [e|] eqn:Hpe; [|discriminate].
    cbn [ret]. destruct (Z.ltb_spec e s) as [Hlt|Hge]; cbn [respond ret snd app];
      [discriminate|].
    destruct (Expense_findAll st (user_id req) s e) as [xs|] eqn:Hx; [|discriminate].
    destruct (Budget_findAll st (user_id req)) as [bs|] eqn:Hb; [|discriminate].
    cbn [snd]. intros H. inversion H; subst.
    exists s, e, xs, bs. repeat split; assumption || reflexivity.
  - intros (s & e & xs & bs & Hs & ->).
    rewrite (getReports_served _ _ _ _ _ _ Hs). reflexivity.
Qed.

(** The store is asked in order and at most once each: the log is a
    prefix of the expense query followed by the budget query, both for
    the user of the request. *)
Theorem queries_in_order (st : Store) (req : Request) :
  fst (getReports st req) = []
  \/ exists start end_,
       newDateParam (startDate req) = Some start
       /\ newDateParam (endDate req) = Some end_
       /\ start <= end_
       /\ (fst (getReports st req) = [FindExpenses (user_id req) start end_]
           \/ fst (getReports st req)
              = [FindExpenses (user_id req) start end_; FindBudgets (user_id req)]).
Proof.
  unfold getReports, handler, bind, reject_if, validDates, findExpenses, findBudgets.
  destruct (negb (str_truthy (startDate req)) || negb (str_truthy (endDate req)));
    cbn [respond ret fst]; [left; reflexivity|].
  destruct (newDateParam (startDate req)) as [s|]; [|left; reflexivity].
  destruct (newDateParam (endDate req)) as [e|]; [|left; reflexivity].
  cbn [ret]. destruct (Z.ltb_spec e s) as [Hlt|Hge]; cbn [respond ret fst app];
    [left; reflexivity|].
  right. exists s, e. repeat split; try assumption.
  destruct (Expense_findAll st (user_id req) s e) as [xs|]; [|left; reflexivity].
  destruct (Budget_findAll st (user_id req)) as [bs|]; right; reflexivity.
Qed.

Lemma fold_left_fixed {A B} (f : A -> B -> A) l a :
  (forall x, In x l -> forall a', f a' x = a') -> fold_left f l a = a.
Proof.
  revert a. induction l as [|x l IH]; intros a H; cbn [fold_left]; [reflexivity|].
  rewrite H by (left; reflexivity). apply IH. intros y Hy. apply H. right. exact Hy.
Qed.

(** When no expense has an amount that reads as a number (in particular
    when there are no expenses), the report is still built: the total is
    0 and both lists are empty.  The actual column of a budget is then 0,
    unless its category is a name that [Object.prototype] defines, in
    which case it is the inherited member. *)
Theorem nothing_counted
    (start end_ : Z) (expenses : list Expense) (budgets : list Budget) :
  (forall x, In x expenses -> counted x = false) ->
  let data := buildReport start end_ expenses budgets in
  totalExpenses data = Fin 0
  /\ expensesByCategory data = []
  /\ expensesByMonth data = []
  /\ (forall entry, In entry (budgetComparison data) ->
        bc_actual entry
        = if inherited (bc_category entry) then Member else Num (Fin 0)).
Proof.
  intros Hnone data. subst data. unfold buildReport.
  cbn [totalExpenses expensesByCategory expensesByMonth budgetComparison].
  assert (Hnan : forall x, In x expenses -> isNaN (expenseAmount x) = true).
  { intros x Hx. specialize (Hnone x Hx). unfold counted in Hnone.
    apply negb_false_iff in Hnone. exact Hnone. }
  assert (Hc : categoryTotals expenses = []).
  { unfold categoryTotals. apply fold_left_fixed. intros x Hx o.
    unfold categoryStep. cbv zeta. rewrite (Hnan x Hx). reflexivity. }
  assert (Hm : monthTotals expenses = []).
  { unfold monthTotals. apply fold_left_fixed. intros x Hx o.
    unfold monthStep. destruct (newDate (expense_date x)); [|reflexivity].
    cbv zeta. rewrite (Hnan x Hx). reflexivity. }
  rewrite Hc, Hm. repeat split.
  - unfold sumExpenses. apply fold_left_fixed. intros x Hx n.
    cbv zeta. rewrite (Hnan x Hx). reflexivity.
  - intros entry Hin. rewrite compareBudgets_entries in Hin.
    apply in_flat_map in Hin. destruct Hin as (b & _ & Hb).
    unfold compareBudget in Hb.
    destruct (negb (str_truthy (budget_category b))); [contradiction|].
    destruct Hb as [<-|[]]. cbn [bc_actual bc_category].
    unfold get. cbn [own]. destruct (inherited (str_or (budget_category b) ""));
      reflexivity.
Qed.
(** For budgets whose categories are not names that [Object.prototype]
    defines, the comparison list is the one the specification describes:
    one entry for each budget with a category, in the order of the
    budgets and without merging equal categories, the budget column
    normalized for the period over the range of the report, the actual
    column what was added up for the category (0 when nothing was), and
    the difference budget minus actual. *)
Theorem plain_comparison_entries
    (st : Store) (req : Request) (start end_ : Z)
    (expenses : list Expense) (budgets : list Budget) :
  Served st req start end_ expenses budgets ->
  (forall b c, In b budgets -> budget_category b = Some c -> inherited c = false) ->
  exists data,
    snd (getReports st req) = Status200 data
    /\ budgetComparison data
       = map (comparisonOf start end_ expenses)
             (filter (fun b => str_truthy (budget_category b)) budgets)
    /\ (forall c, (forall x, In x expenses -> categoryOf x <> c) ->
                  addedIn c expenses = Fin 0).
Proof.
  intros Hs Hplain. rewrite (getReports_served _ _ _ _ _ _ Hs). cbn [snd].
  pose proof Hs as (_ & _ & _ & _ & Hle & _).
  eexists. split; [reflexivity|]. split.
  - unfold buildReport. cbn [budgetComparison]. rewrite compareBudgets_entries.
    clear Hs. induction budgets as [|b l IH]; cbn [flat_map filter map]; [reflexivity|].
    rewrite IH by (intros b' c Hb'; apply Hplain; right; exact Hb').
    unfold compareBudget at 1.
    destruct (budget_category b) as [c|] eqn:Hc; cbn [str_truthy negb app];
      [|reflexivity].
    destruct (String.eqb_spec c "") as [->|Hne]; cbn [negb app map]; [reflexivity|].
    cbv zeta. f_equal. unfold comparisonOf. rewrite Hc. cbn [str_or].
    destruct (String.eqb_spec c "") as [|_]; [contradiction|].
    rewrite actual_addedIn by (apply (Hplain b c); [left; reflexivity|exact Hc]).
    rewrite adjusted_normalized, parsed_amountOrZero by exact Hle. reflexivity.
  - intros c Hc. unfold addedIn.
    replace (filter (fun e => counted e && (categoryOf e =? c)%string) expenses)
      with (@nil Expense); [reflexivity|].
    symmetry. clear Hs. induction expenses as [|x l IH]; cbn [filter]; [reflexivity|].
    destruct (String.eqb_spec (categoryOf x) c) as [Heq|Hne].
    + exfalso. apply (Hc x); [left; reflexivity|exact Heq].
    + rewrite andb_false_r. apply IH. intros y Hy. apply Hc. right. exact Hy.
Qed.



End Outcomes.

(** ** Order of the entries, and the month list *)

Section Order.

Context {host : Host}.

Lemma isNew_In seen x : isNew seen x = false <-> In x seen.
Proof.
  unfold isNew. rewrite negb_false_iff, existsb_exists. split.
  - intros (y & Hy & Heq). apply String.eqb_eq in Heq. subst. exact Hy.
  - intros Hx. exists x. split; [exact Hx|apply String.eqb_refl].
Qed.

Lemma filter_filter {A} (f g : A -> bool) l :
  filter f (filter g l) = filter (fun x => g x && f x) l.
Proof.
  induction l as [|x l IH]; cbn [filter]; [reflexivity|].
  destruct (g x); cbn [filter andb]; [destruct (f x)|]; rewrite IH; reflexivity.
Qed.

Lemma filter_all {A} (f : A -> bool) l :
  (forall x, In x l -> f x = true) -> filter f l = l.
Proof.
  induction l as [|x l IH]; intros H; cbn [filter]; [reflexivity|].
  rewrite (H x (or_introl eq_refl)), IH; [reflexivity|].
  intros y Hy. apply H. right. exact Hy.
Qed.

Lemma tally_order (key : Expense -> option string) l o :
  tidy o ->
  map fst (tally key l o)
  = (map fst o
     ++ filter (isNew (map fst o)) (firsts (filter storable (filedUnder key l))))%list.
Proof.
  unfold tally, filedUnder. revert o.
  induction l as [|e l IH]; intros o Ho; cbn [fold_left flat_map].
  - cbn. rewrite List.app_nil_r. reflexivity.
  - destruct (key e) as [k|]; [|apply IH, Ho].
    rewrite IH by (apply accumulate_tidy, Ho).
    cbn [app filter]. rewrite accumulate_names by exact Ho. unfold storable at 2.
    destruct (String.eqb_spec k "__proto__") as [->|Hp]; cbn [negb]; [reflexivity|].
    cbn [firsts filter].
    set (rest := firsts (filter storable (flat_map _ l))).
    destruct (own o k) eqn:Hg.
    + assert (Hin : In k (map fst o)) by (apply own_In; congruence).
      apply isNew_In in Hin. rewrite Hin. f_equal.
      rewrite filter_filter. apply filter_ext. intros x.
      destruct (String.eqb_spec x k) as [->|]; cbn [negb andb]; [|reflexivity].
      exact Hin.
    + assert (Hnin : isNew (map fst o) k = true).
      { destruct (isNew (map fst o) k) eqn:Hn; [reflexivity|].
        apply isNew_In, own_In in Hn. congruence. }
      rewrite Hnin, <- List.app_assoc. cbn [app]. do 2 f_equal.
      rewrite filter_filter. apply filter_ext. intros x.
      unfold isNew. rewrite existsb_app. cbn [existsb]. rewrite orb_false_r.
      rewrite negb_orb, andb_comm. reflexivity.
Qed.

Lemma isNew_nil l : filter (isNew []) l = l.
Proof. apply filter_all. reflexivity. Qed.


(** The category list comes in the order of [Object.keys]: categories
    that read as array indices first, in ascending order, then the others
    in the order in which they are first met among the counted expenses;
    "__proto__" is never among them. *)
Theorem categories_first_seen
    (start end_ : Z) (expenses : list Expense) (budgets : list Budget) :
  map ct_category (expensesByCategory (buildReport start end_ expenses budgets))
  = propertyOrder
      (firsts (filter storable (map categoryOf (filter counted expenses)))).
Proof.
  unfold buildReport. cbn [expensesByCategory].
  rewrite toCategoryList_categories. unfold keys.
  rewrite categoryTotals_tally, tally_order by apply tidy_nil.
  cbn [map app]. rewrite isNew_nil. do 3 f_equal.
  unfold filedUnder, categoryKey.
  induction expenses as [|x l IH]; cbn [flat_map filter map]; [reflexivity|].
  destruct (counted x); cbn [app map]; rewrite IH; reflexivity.
Qed.
(** What the category list holds for the names that [Object.prototype]
    defines: "__proto__" is never listed, whatever is filed under it,
    and any other such name is listed once a counted expense is filed
    under it, with a text for its amount. *)
Theorem prototype_named_categories
    (start end_ : Z) (expenses : list Expense) (budgets : list Budget) :
  let entries := expensesByCategory (buildReport start end_ expenses budgets) in
  ~ In "__proto__" (map ct_category entries)
  /\ (forall c, inherited c = true -> c <> "__proto__" ->
        (In c (map ct_category entries)
         <-> exists x, In x expenses /\ counted x = true /\ categoryOf x = c))
  /\ (forall entry, In entry entries ->
        inherited (ct_category entry) = true -> ct_amount entry = Text).
Proof.
  cbv zeta. unfold buildReport. cbn [expensesByCategory].
  rewrite toCategoryList_categories. split; [|split].
  - intros Hin. apply keys_In in Hin.
    rewrite categoryTotals_tally, tally_names in Hin by apply tidy_nil.
    destruct Hin as [[]|[Hp _]]. apply Hp. reflexivity.
  - intros c _ Hp. rewrite keys_In, categoryTotals_tally, tally_names by apply tidy_nil.
    cbn [map In]. split.
    + intros [[]|(_ & x & Hx & Hk)]. exists x. unfold categoryKey in Hk.
      destruct (counted x); [|discriminate]. inversion Hk. auto.
    + intros (x & Hx & Hc & Hcat). right. split; [exact Hp|].
      exists x. split; [exact Hx|]. unfold categoryKey. rewrite Hc, Hcat. reflexivity.
  - intros entry Hin Hi. unfold toCategoryList in Hin. apply in_map_iff in Hin.
    destruct Hin as (k & <- & Hk). cbn [ct_amount ct_category] in *.
    apply member_read; [apply categoryTotals_tidy|apply keys_In, Hk|exact Hi].
Qed.



End Order.

Section Months.

Context {host : Host}.
Import Calendar CalendarFacts.

Lemma toString_inj a b : toString a = toString b -> a = b.
Proof.
  unfold toString. intros H. apply DecimalZ.to_int_inj.
  assert (Hn : forall z, Z.to_int z <> Decimal.Pos Decimal.Nil
                         /\ Z.to_int z <> Decimal.Neg Decimal.Nil).
  { intros [|p|p]; cbn; split; try discriminate;
      intros [= Hp]; apply (DecimalPos.Unsigned.to_uint_nonnil p Hp). }
  pose proof (NilZero.isi (Z.to_int a) (proj1 (Hn a)) (proj2 (Hn a))) as Ha.
  pose proof (NilZero.isi (Z.to_int b) (proj1 (Hn b)) (proj2 (Hn b))) as Hb.
  rewrite H in Ha. congruence.
Qed.

Lemma length_append s1 s2 :
  String.length (s1 ++ s2) = (String.length s1 + String.length s2)%nat.
Proof. induction s1 as [|c s1 IH]; cbn; [reflexivity|]. rewrite IH. reflexivity. Qed.

(** Texts that end in tails of one length are equal part by part. *)
Lemma append_inj s1 s1' s2 s2' :
  String.length s2 = String.length s2' ->
  s1 ++ s2 = s1' ++ s2' -> s1 = s1' /\ s2 = s2'.
Proof.
  intros Hlen. revert s1'.
  induction s1 as [|c s1 IH]; intros [|c' s1'] H; cbn in H.
  - split; [reflexivity|exact H].
  - exfalso. rewrite H in Hlen. cbn in Hlen. rewrite length_append in Hlen. lia.
  - exfalso. rewrite <- H in Hlen. cbn in Hlen. rewrite length_append in Hlen. lia.
  - inversion H as [[Hc Hs]]. destruct (IH s1' Hs) as [-> ->]. split; reflexivity.
Qed.

Lemma month_text m :
  0 <= m <= 11 ->
  String.length (padStart2 (toString (m + 1))) = 2%nat
  /\ forall m', 0 <= m' <= 11 ->
       padStart2 (toString (m + 1)) = padStart2 (toString (m' + 1)) -> m = m'.
Proof.
  intros Hm.
  assert (m = 0 \/ m = 1 \/ m = 2 \/ m = 3 \/ m = 4 \/ m = 5 \/ m = 6 \/ m = 7
          \/ m = 8 \/ m = 9 \/ m = 10 \/ m = 11) as Hc by lia.
  split.
  - repeat (destruct Hc as [->|Hc]; [reflexivity|]). subst. reflexivity.
  - intros m' Hm'.
    assert (m' = 0 \/ m' = 1 \/ m' = 2 \/ m' = 3 \/ m' = 4 \/ m' = 5 \/ m' = 6
            \/ m' = 7 \/ m' = 8 \/ m' = 9 \/ m' = 10 \/ m' = 11) as Hc' by lia.
    repeat (destruct Hc as [->|Hc]);
      repeat (destruct Hc' as [->|Hc']); subst;
      cbn; intros H; (reflexivity || discriminate H).
Qed.

Lemma getMonth_range t : 0 <= getMonth t <= 11.
Proof. unfold getMonth, MonthFromTime. apply MonthFromDay_range. Qed.

Lemma monthKey_eq_iff (t t' : Z) :
  monthKey t = monthKey t'
  <-> getFullYear t = getFullYear t' /\ getMonth t = getMonth t'.
Proof.
  split.
  - unfold monthKey. intros H.
    destruct (month_text (getMonth t) (getMonth_range t)) as [Hl Hinj].
    destruct (month_text (getMonth t') (getMonth_range t')) as [Hl' _].
    apply append_inj in H.
    + destruct H as [Hy Hm]. split; [apply toString_inj, Hy|].
      inversion Hm as [Hp]. apply Hinj; [apply getMonth_range|exact Hp].
    + cbn [String.append String.length]. rewrite Hl, Hl'. reflexivity.
  - intros [Hy Hm]. unfold monthKey. rewrite Hy, Hm. reflexivity.
Qed.


(** Two dates get the same month key exactly when they fall in the same
    month of the same year, local time: no two calendar months share an
    entry of the month list. *)
Theorem monthKey_same_month (t t' : Z) :
  monthKey t = monthKey t'
  <-> getFullYear t = getFullYear t' /\ getMonth t = getMonth t'.
Proof.
  split.
  - unfold monthKey. intros H.
    destruct (month_text (getMonth t) (getMonth_range t)) as [Hl Hinj].
    destruct (month_text (getMonth t') (getMonth_range t')) as [Hl' _].
    apply append_inj in H.
    + destruct H as [Hy Hm]. split; [apply toString_inj, Hy|].
      inversion Hm as [Hp]. apply Hinj; [apply getMonth_range|exact Hp].
    + cbn [String.append String.length]. rewrite Hl, Hl'. reflexivity.
  - intros [Hy Hm]. unfold monthKey. rewrite Hy, Hm. reflexivity.
Qed.

Lemma toMonthList_months o : map mt_month (toMonthList o) = keys o.
Proof. unfold toMonthList. rewrite map_map. apply map_id. Qed.

(** The month list has one entry for each local calendar month in which
    a counted expense with a readable date falls, and the entry's amount
    is the sum of the counted expenses dated in that month. *)
Theorem month_entries
    (start end_ : Z) (expenses : list Expense) (budgets : list Budget) :
  let entries := expensesByMonth (buildReport start end_ expenses budgets) in
  NoDup (map mt_month entries)
  /\ (forall entry, In entry entries ->
        exists x date,
          In x expenses /\ counted x = true
          /\ newDate (expense_date x) = Some date
          /\ mt_month entry = monthKey date)
  /\ (forall x date,
        In x expenses -> counted x = true ->
        newDate (expense_date x) = Some date ->
        In (mkMonthTotal (monthKey date)
              (Fin (spentInMonth (getFullYear date) (getMonth date) expenses)))
           entries).
Proof.
  cbv zeta. unfold buildReport. cbn [expensesByMonth].
  pose proof (monthTotals_tidy expenses) as Ht.
  assert (Hkeys : forall k, In k (keys (monthTotals expenses))
                            <-> exists x, In x expenses /\ monthKeyOf x = Some k).
  { intros k. rewrite keys_In, monthTotals_tally, tally_names by apply tidy_nil.
    cbn [map In]. split; [intros [[]|[_ H]]; exact H|].
    intros (x & Hx & Hk). right. split; [|exists x; auto].
    intros ->. destruct (monthKeyOf_plain x _ Hk) as [Hi _]. discriminate Hi. }
  split; [rewrite toMonthList_months; apply keys_NoDup, Ht|split].
  - intros entry Hin. unfold toMonthList in Hin. apply in_map_iff in Hin.
    destruct Hin as (k & <- & Hk). apply Hkeys in Hk.
    destruct Hk as (x & Hx & Hkx). unfold monthKeyOf in Hkx.
    destruct (newDate (expense_date x)) as [date|] eqn:Hd; [|discriminate].
    destruct (counted x) eqn:Hc; [|discriminate].
    inversion Hkx; subst. exists x, date. auto.
  - intros x date Hx Hc Hd. unfold toMonthList. apply in_map_iff.
    assert (Hk : monthKeyOf x = Some (monthKey date))
      by (unfold monthKeyOf; rewrite Hd, Hc; reflexivity).
    assert (Hin : In (monthKey date) (keys (monthTotals expenses)))
      by (apply Hkeys; exists x; auto).
    destruct (monthKeyOf_plain x _ Hk) as [Hi _].
    exists (monthKey date). split; [|exact Hin].
    f_equal. rewrite plain_read by (assumption || apply keys_In, Hin).
    do 2 f_equal. rewrite monthTotals_tally, tally_own by (apply tidy_nil || exact Hi).
    cbn [own read asNumber value]. rewrite Z.add_0_l.
    unfold amounts, spentInMonth. do 2 f_equal. apply filter_ext. intros y.
    unfold keyedAs, monthKeyOf.
    destruct (newDate (expense_date y)) as [dy|]; [|reflexivity].
    destruct (counted y); cbn [andb]; [|reflexivity].
    destruct (String.eqb_spec (monthKey dy) (monthKey date)) as [Heq|Hne].
    + apply monthKey_eq_iff in Heq. destruct Heq as [-> ->].
      rewrite !Z.eqb_refl. reflexivity.
    + destruct (Z.eqb_spec (getFullYear dy) (getFullYear date)) as [Hy|];
        [|reflexivity].
      destruct (Z.eqb_spec (getMonth dy) (getMonth date)) as [Hm|];
        [|reflexivity].
      exfalso. apply Hne. apply monthKey_eq_iff. auto.
Qed.


End Months.

(** ** The middleware *)

Section AuthFacts.

Import Auth.

Lemma prefix_append s t : String.prefix s (s ++ t) = true.
Proof.
  induction s as [|c s IH]; cbn.
  - destruct t; reflexivity.
  - destruct (ascii_dec c c) as [_|Hne]; [exact IH|contradiction].
Qed.

Lemma substring_all s : String.substring 0 (String.length s) s = s.
Proof. induction s as [|c s IH]; cbn; [reflexivity|]. rewrite IH. reflexivity. Qed.

Lemma substring7_Bearer t : substring7 ("Bearer " ++ t) = t.
Proof.
  unfold substring7. cbn [String.append String.length].
  replace (S (S (S (S (S (S (S (String.length t))))))) - 7)%nat
    with (String.length t) by lia.
  cbn [String.substring]. apply substring_all.
Qed.

Lemma Bearer_nonempty t : ("Bearer " ++ t =? "")%string = false.
Proof. reflexivity. Qed.

Lemma findToken_Bearer req t :
  authorization req = Some ("Bearer " ++ t) -> findToken req = Some t.
Proof.
  intros H. unfold findToken, startsWithBearer. cbv zeta. rewrite H.
  unfold str_truthy, str_or. rewrite Bearer_nonempty. cbn [negb andb].
  rewrite prefix_append, substring7_Bearer. reflexivity.
Qed.

(** A header of the form "Bearer <token>" decides alone: cookies, the
    x-auth-token header and the body are not looked at, even when the
    token after "Bearer " is empty, in which case the request is refused
    for want of a token. *)
Theorem bearer_header_decides (db : Accounts) (req : Credentials) (t : string) :
  authorization req = Some ("Bearer " ++ t) ->
  auth db req = auth db (mkCredentials (Some ("Bearer " ++ t)) None None None)
  /\ (t = "" -> auth db req = ([], Answer 401 "No authentication token provided")).
Proof.
  intros H.
  assert (Hreq : findToken req = Some t) by (apply findToken_Bearer, H).
  assert (Hmin : findToken (mkCredentials (Some ("Bearer " ++ t)) None None None) = Some t)
    by (apply findToken_Bearer; reflexivity).
  split.
  - unfold auth. rewrite Hreq, Hmin. reflexivity.
  - intros ->. unfold auth. rewrite Hreq. reflexivity.
Qed.

(** Without a usable Authorization header the sources are tried in the
    order cookie, x-auth-token header, body: a token found earlier hides
    all later ones, and an Authorization header that does not start with
    "Bearer " is as good as absent. *)
Theorem token_fallback_order (db : Accounts) (req : Credentials) :
  (forall h, authorization req = Some h -> startsWithBearer h = false) ->
  auth db req
  = auth db (mkCredentials None (cookie_token req) (x_auth_token req) (body_token req))
  /\ (str_truthy (cookie_token req) = true ->
      auth db req = auth db (mkCredentials None (cookie_token req) None None))
  /\ (str_truthy (cookie_token req) = false ->
      str_truthy (x_auth_token req) = true ->
      auth db req = auth db (mkCredentials None None (x_auth_token req) None))
  /\ (str_truthy (cookie_token req) = false ->
      str_truthy (x_auth_token req) = false ->
      auth db req = auth db (mkCredentials None None None (body_token req))).
Proof.
  intros Hh.
  assert (Hhead : str_truthy (authorization req)
                  && startsWithBearer (str_or (authorization req) "") = false).
  { destruct (authorization req) as [h|] eqn:Ha; [|reflexivity].
    cbn [str_truthy str_or]. destruct (String.eqb_spec h "") as [->|]; [reflexivity|].
    cbn [negb andb]. apply Hh. reflexivity. }
  unfold auth, findToken. cbv zeta. rewrite Hhead.
  cbn [authorization cookie_token x_auth_token body_token str_truthy andb].
  repeat split.
  - intros ->. reflexivity.
  - intros -> ->. reflexivity.
  - intros -> ->. reflexivity.
Qed.

(** The request is handed on exactly when its token verifies, the user
    of the payload exists and is active, and the login time could be
    saved; the user table has then been read once and written once. *)
Theorem next_iff (db : Accounts) (req : Credentials) (user : User) (log : list access) :
  auth db req = (log, Next user)
  <-> exists token decoded_id,
        findToken req = Some token /\ token <> ""
        /\ jwt_verify db token = Decoded decoded_id
        /\ User_findByPk db decoded_id = Resolved (Some user)
        /\ is_active user = true
        /\ User_save db user = Resolved tt
        /\ log = [FindByPk decoded_id; Save (id user)].
Proof.
  unfold auth. split.
  - destruct (findToken req) as [token|]; cbn [str_truthy negb str_or]; [|discriminate].
    destruct (String.eqb_spec token "") as [->|Hne]; cbn [negb]; [discriminate|].
    destruct (jwt_verify db token) as [decoded_id| |] eqn:Hv; try discriminate.
    destruct (User_findByPk db decoded_id) as [[u|]|e] eqn:Hf;
      try discriminate; [|destruct e; discriminate].
    destruct (is_active u) eqn:Hact; cbn [negb]; [|discriminate].
    destruct (User_save db u) as [[]|e] eqn:Hs; [|destruct e; discriminate].
    intros H. inversion H; subst. exists token, decoded_id. repeat split; assumption.
  - intros (token & decoded_id & -> & Hne & Hv & Hf & Hact & Hs & ->).
    cbn [str_truthy negb str_or].
    destruct (String.eqb_spec token "") as [->|_]; [contradiction|]. cbn [negb].
    rewrite Hv, Hf, Hact. cbn [negb]. rewrite Hs. reflexivity.
Qed.

(** The user table is touched only under the id of a verified token:
    it is read at most once, and written at most once afterwards, and
    then only for a user that was found under that id and is active.  A
    request without a token, or with an expired or invalid one, does not
    reach the table at all. *)
Theorem user_table_accesses (db : Accounts) (req : Credentials) :
  let log := fst (auth db req) in
  log = []
  \/ exists token decoded_id,
       findToken req = Some token
       /\ jwt_verify db token = Decoded decoded_id
       /\ (log = [FindByPk decoded_id]
           \/ exists user,
                User_findByPk db decoded_id = Resolved (Some user)
                /\ is_active user = true
                /\ log = [FindByPk decoded_id; Save (id user)]).
Proof.
  cbv zeta. unfold auth.
  destruct (findToken req) as [token|]; cbn [str_truthy negb str_or];
    [|left; reflexivity].
  destruct (String.eqb_spec token "") as [->|Hne]; cbn [negb fst];
    [left; reflexivity|].
  destruct (jwt_verify db token) as [decoded_id| |] eqn:Hv;
    [|left; reflexivity|left; reflexivity].
  right. exists token, decoded_id. split; [reflexivity|]. split; [exact Hv|].
  destruct (User_findByPk db decoded_id) as [[u|]|e] eqn:Hf;
    [|left; reflexivity|left; reflexivity].
  destruct (is_active u) eqn:Hact; cbn [negb]; [|left; reflexivity].
  right. exists u. destruct (User_save db u) as [[]|e]; auto.
Qed.

Lemma getReports_queries {host : Host} st req q :
  In q (fst (getReports st req)) ->
  (exists start end_, q = FindExpenses (user_id req) start end_)
  \/ q = FindBudgets (user_id req).
Proof.
  unfold getReports, handler, bind, reject_if, validDates, findExpenses, findBudgets.
  destruct (negb (str_truthy (startDate req)) || negb (str_truthy (endDate req)));
    cbn [respond ret fst]; [intros []|].
  destruct (newDateParam (startDate req)) as [s|]; [|intros []].
  destruct (newDateParam (endDate req)) as [e|]; [|intros []].
  cbn [ret]. destruct (e <? s); cbn [respond ret fst app]; [intros []|].
  destruct (Expense_findAll st (user_id req) s e) as [xs|].
  - destruct (Budget_findAll st (user_id req)) as [bs|]; cbn [fst];
      (intros [<-|[<-|[]]]; [left; eauto|right; reflexivity]).
  - cbn [fst]. intros [<-|[]]. left. eauto.
Qed.

(** The report is behind the middleware: when the middleware answers
    itself, its answer is the route's and the expense and budget tables
    are not queried; otherwise every query is made for the id of the
    user the middleware put on the request. *)
Theorem reports_behind_auth {host : Host}
    (db : Accounts) (st : Store) (req : Credentials)
    (startDate endDate : option string) :
  let queries := snd (fst (route db st req startDate endDate)) in
  let sent := snd (route db st req startDate endDate) in
  (forall status error,
     snd (auth db req) = Answer status error ->
     queries = [] /\ sent = Refused status error)
  /\ (forall user,
        snd (auth db req) = Next user ->
        sent = Handled (snd (getReports st (mkRequest (id user) startDate endDate)))
        /\ forall q, In q queries ->
             (exists start end_, q = FindExpenses (id user) start end_)
             \/ q = FindBudgets (id user))
  /\ fst (fst (route db st req startDate endDate)) = fst (auth db req).
Proof.
  cbv zeta. unfold route.
  destruct (auth db req) as [accesses [user|status error]]; cbn [snd fst].
  - destruct (getReports st (mkRequest (id user) startDate endDate)) as [queries r] eqn:Hg.
    cbn [snd fst]. repeat split; try discriminate.
    + inversion H; subst. rewrite Hg. reflexivity.
    + inversion H; subst. intros q Hq.
      apply (getReports_queries st (mkRequest (id user0) startDate endDate)).
      rewrite Hg. exact Hq.
  - repeat split; try discriminate; inversion H; subst; reflexivity.
Qed.

End AuthFacts.

(** ** More on outcomes and the middleware *)

Section MoreOutcomes.

Context {host : Host}.
Import Calendar CalendarFacts.

(** The month list comes in the order in which the months are first met
    among the counted expenses with a readable date. *)
Theorem months_first_seen
    (start end_ : Z) (expenses : list Expense) (budgets : list Budget) :
  map mt_month (expensesByMonth (buildReport start end_ expenses budgets))
  = firsts (filedUnder monthKeyOf expenses).
Proof.
  unfold buildReport. cbn [expensesByMonth].
  rewrite toMonthList_months. unfold keys.
  rewrite propertyOrder_plain
    by (intros k Hk; apply (month_names_plain expenses k Hk)).
  rewrite monthTotals_tally, tally_order by apply tidy_nil.
  cbn [map app]. rewrite isNew_nil. f_equal. apply filter_all.
  intros k Hk. unfold filedUnder in Hk. apply in_flat_map in Hk.
  destruct Hk as (x & _ & Hk).
  destruct (monthKeyOf x) as [k'|] eqn:Hx; [|contradiction].
  destruct Hk as [<-|[]]. destruct (monthKeyOf_plain x k' Hx) as [Hi _].
  unfold storable. destruct (String.eqb_spec k' "__proto__") as [->|]; [discriminate Hi|reflexivity].
Qed.


(** An expense whose amount is missing (null, undefined, empty, zero or
    NaN) is not skipped: it is counted with amount 0, and so its
    category is listed, unless that category is "__proto__". *)
Theorem missing_amount_counts_as_zero
    (start end_ : Z) (expenses : list Expense) (budgets : list Budget) (x : Expense) :
  truthy (expense_amount x) = false ->
  expenseAmount x = Fin 0
  /\ counted x = true
  /\ (In x expenses -> categoryOf x <> "__proto__" ->
      In (categoryOf x)
         (map ct_category
            (expensesByCategory (buildReport start end_ expenses budgets)))).
Proof.
  intros Hx.
  assert (Ha : expenseAmount x = Fin 0).
  { unfold expenseAmount, or_else. rewrite Hx. reflexivity. }
  assert (Hc : counted x = true) by (unfold counted; rewrite Ha; reflexivity).
  repeat split; try assumption.
  intros Hin Hp. unfold buildReport. cbn [expensesByCategory].
  rewrite toCategoryList_categories. apply category_names. split; [exact Hp|].
  exists x. auto.
Qed.


(** A range that starts and ends at the same instant counts as one
    period, whatever the period: the budget is compared as it stands. *)
Theorem single_instant_range (period : string) (amount : number) (t : Z) :
  adjustedBudgetAmount period amount t t = amount.
Proof.
  rewrite adjusted_periodCount.
  replace (periodCount period t t) with 1; [apply times_one|].
  unfold periodCount. rewrite monthDiff_index.
  replace (monthIndex t - monthIndex t + 1) with 1 by lia.
  rewrite Z.sub_diag, Z.ltb_irrefl, Z.eqb_refl, Z.leb_refl. cbn [orb andb].
  replace (getFullYear t - getFullYear t + 1) with 1 by lia.
  repeat match goal with
         | |- context [(?p =? ?q)%string] => destruct (p =? q)%string
         end; reflexivity.
Qed.

End MoreOutcomes.

Section MoreAuth.

Import Auth.

(** The middleware answers with 401 or 500 only.  A 401 is given before
    anything is written to the user table, and a 500 carries one of the
    two messages of the outer catch. *)
Theorem auth_status_codes (db : Accounts) (req : Credentials)
    (log : list access) (status : Z) (error : string) :
  auth db req = (log, Answer status error) ->
  (status = 401 /\ forall i, ~ In (Save i) log)
  \/ (status = 500
      /\ (error = "Database error during authentication"
          \/ error = "Server error during authentication")).
Proof.
  unfold auth.
  assert (Hnil : forall i, ~ In (Save i) []) by (intros i []).
  assert (Hread : forall d i, ~ In (Save i) [FindByPk d])
    by (intros d i [H|[]]; discriminate H).
  destruct (findToken req) as [token|]; cbn [str_truthy negb str_or];
    [|intros [= <- <- _]; left; auto].
  destruct (String.eqb_spec token "") as [->|Hne]; cbn [negb];
    [intros [= <- <- _]; left; auto|].
  destruct (jwt_verify db token) as [decoded_id| |];
    [|intros [= <- <- _]; left; auto|intros [= <- <- _]; left; auto].
  destruct (User_findByPk db decoded_id) as [[u|]|e].
  - destruct (is_active u); cbn [negb];
      [|intros [= <- <- _]; left; auto].
    destruct (User_save db u) as [[]|e]; [discriminate|].
    destruct e; intros [= _ <- <-]; right; auto.
  - intros [= <- <- _]. left. auto.
  - destruct e; intros [= _ <- <-]; right; auto.
Qed.


End MoreAuth.

(** ** Instances *)

(** From 1 January to noon of 8 January 2024 a weekly budget counts
    twice. *)
Lemma weekly_least_cover_witness :
  1704067200000 <= 1704715200000
  /\ exists weeks,
       @adjustedBudgetAmount (Iso.host 0) "weekly" (Fin 100)
         1704067200000 1704715200000
       = times (Fin 100) weeks
       /\ 1 <= weeks.
Proof.
  assert (Hle : 1704067200000 <= 1704715200000) by (vm_compute; discriminate).
  split; [exact Hle|].
  destruct (@weekly_least_cover (Iso.host 0) (Fin 100)
              1704067200000 1704715200000 Hle) as (weeks & H1 & H2 & _).
  exists weeks. split; assumption.
Defined.

Lemma scenario_ordered : Scenario.start <= Scenario.end_.
Proof. vm_compute. discriminate. Qed.

Lemma quarterly_least_cover_witness :
  Scenario.start <= Scenario.end_
  /\ exists quarters,
       @adjustedBudgetAmount (Iso.host 0) "quarterly" (Fin 100)
         Scenario.start Scenario.end_
       = times (Fin 100) quarters
       /\ 1 <= quarters.
Proof.
  split; [exact scenario_ordered|].
  destruct (@quarterly_least_cover (Iso.host 0) (Fin 100)
              Scenario.start Scenario.end_ scenario_ordered) as (q & H1 & H2 & _).
  exists q. split; assumption.
Defined.

Lemma yearly_anniversaries_witness :
  Scenario.start <= Scenario.end_
  /\ @adjustedBudgetAmount (Iso.host 0) "yearly" (Fin 100)
       Scenario.start Scenario.end_
     = Fin 100.
Proof.
  split; [exact scenario_ordered|].
  destruct (@yearly_anniversaries (Iso.host 0) (Fin 100)
              Scenario.start Scenario.end_ scenario_ordered) as (_ & _ & _ & H).
  apply H. reflexivity.
Defined.

Lemma store_rejections_witness :
  @getReports (Iso.host 0) MoreSamples.no_expenses Scenario.request
  = ([FindExpenses 7 Scenario.start Scenario.end_], ServerError).
Proof.
  refine (proj1 (@store_rejections (Iso.host 0) MoreSamples.no_expenses
                   Scenario.request Scenario.start Scenario.end_
                   eq_refl eq_refl eq_refl eq_refl scenario_ordered) eq_refl).
Defined.

Lemma unreadable_uncounted :
  forall x, In x MoreSamples.unreadable -> @counted (Iso.host 0) x = false.
Proof. intros x [<-|[<-|[]]]; reflexivity. Qed.

Lemma nothing_counted_witness :
  (forall x, In x MoreSamples.unreadable -> @counted (Iso.host 0) x = false)
  /\ totalExpenses
       (@buildReport (Iso.host 0) Scenario.start Scenario.end_
          MoreSamples.unreadable Scenario.budgets)
     = Fin 0.
Proof.
  split; [exact unreadable_uncounted|].
  exact (proj1 (@nothing_counted (Iso.host 0) Scenario.start Scenario.end_
                  MoreSamples.unreadable Scenario.budgets unreadable_uncounted)).
Defined.
Lemma samples_plain :
  forall b c, In b Samples.budgets -> budget_category b = Some c ->
              inherited c = false.
Proof.
  intros b c [<-|[<-|[<-|[<-|[<-|[<-|[]]]]]]]; intros [= <-]; reflexivity.
Qed.

(** The six sample budgets against the three expenses of the scenario. *)
Lemma plain_comparison_entries_witness :
  @Served (Iso.host 0) Samples.store Scenario.request
     Scenario.start Scenario.end_ Scenario.expenses Samples.budgets
  /\ (forall b c, In b Samples.budgets -> budget_category b = Some c ->
                  inherited c = false)
  /\ exists data,
       snd (@getReports (Iso.host 0) Samples.store Scenario.request) = Status200 data
       /\ budgetComparison data
          = map (@comparisonOf (Iso.host 0) Scenario.start Scenario.end_ Scenario.expenses)
                (filter (fun b => str_truthy (budget_category b)) Samples.budgets).
Proof.
  split; [apply Served_scenario|]. split; [exact samples_plain|].
  destruct (@plain_comparison_entries (Iso.host 0) Samples.store Scenario.request
              Scenario.start Scenario.end_ Scenario.expenses Samples.budgets
              (Served_scenario Samples.budgets) samples_plain)
    as (data & Hd & Hm & _).
  exists data. split; assumption.
Defined.


Lemma longer_range_no_smaller_budget_witness :
  0 <= 100 /\ 1704672000000 <= 1704715200000
  /\ value (@adjustedBudgetAmount (Iso.host 0) "weekly" (Fin 100)
              1704067200000 1704672000000)
     <= value (@adjustedBudgetAmount (Iso.host 0) "weekly" (Fin 100)
                 1704067200000 1704715200000).
Proof.
  assert (H0 : 0 <= 100) by lia.
  assert (H1 : 1704672000000 <= 1704715200000) by (vm_compute; discriminate).
  split; [exact H0|]. split; [exact H1|].
  exact (@longer_range_no_smaller_budget (Iso.host 0) "weekly" 100
           1704067200000 1704672000000 1704715200000 H0 H1).
Defined.

(** The Bearer token is used although the cookie holds another one. *)
Lemma bearer_header_decides_witness :
  Auth.authorization MoreSamples.bearer_and_cookie = Some ("Bearer " ++ "good")
  /\ Auth.auth MoreSamples.accounts MoreSamples.bearer_and_cookie
     = Auth.auth MoreSamples.accounts
         (Auth.mkCredentials (Some ("Bearer " ++ "good")) None None None).
Proof.
  split; [reflexivity|].
  exact (proj1 (bearer_header_decides MoreSamples.accounts
                  MoreSamples.bearer_and_cookie "good" eq_refl)).
Defined.

Lemma basic_is_no_bearer :
  forall h, Auth.authorization MoreSamples.basic_and_cookie = Some h ->
            Auth.startsWithBearer h = false.
Proof. intros h [= <-]. reflexivity. Qed.

(** The cookie is used, not the x-auth-token header. *)
Lemma token_fallback_order_witness :
  (forall h, Auth.authorization MoreSamples.basic_and_cookie = Some h ->
             Auth.startsWithBearer h = false)
  /\ Auth.auth MoreSamples.accounts MoreSamples.basic_and_cookie
     = Auth.auth MoreSamples.accounts
         (Auth.mkCredentials None (Auth.cookie_token MoreSamples.basic_and_cookie)
            None None).
Proof.
  split; [exact basic_is_no_bearer|].
  destruct (token_fallback_order MoreSamples.accounts MoreSamples.basic_and_cookie
              basic_is_no_bearer) as (_ & H & _).
  apply H. reflexivity.
Defined.

Lemma no_token_answer :
  Auth.auth MoreSamples.accounts (Auth.mkCredentials None None None None)
  = ([], Auth.Answer 401 "No authentication token provided").
Proof. reflexivity. Qed.

Lemma auth_status_codes_witness :
  Auth.auth MoreSamples.accounts (Auth.mkCredentials None None None None)
  = ([], Auth.Answer 401 "No authentication token provided")
  /\ ((401 = 401 /\ forall i, ~ In (Auth.Save i) [])
      \/ (401 = 500
          /\ ("No authentication token provided" = "Database error during authentication"
              \/ "No authentication token provided"
                 = "Server error during authentication"))).
Proof.
  split; [exact no_token_answer|].
  exact (auth_status_codes MoreSamples.accounts (Auth.mkCredentials None None None None)
           [] 401 "No authentication token provided" no_token_answer).
Defined.


Lemma missing_amount_counts_as_zero_witness :
  truthy (expense_amount (mkExpense 1 JNull (Some "Food") (JStr "2024-01-05"))) = false
  /\ @counted (Iso.host 0) (mkExpense 1 JNull (Some "Food") (JStr "2024-01-05")) = true.
Proof.
  split; [reflexivity|].
  destruct (@missing_amount_counts_as_zero (Iso.host 0) Scenario.start Scenario.end_
              Samples.zero_amounts [] (mkExpense 1 JNull (Some "Food") (JStr "2024-01-05"))
              eq_refl) as (_ & H & _).
  exact H.
Defined.
